(** * what_could_have_been.py: per-parcel capacity model

    A shallow embedding of the row-wise functions and the table
    operations of [what_could_have_been.py], and the properties of them
    that the design document states.

    Conventions of the embedding.
    - A Python float is an exact rational ([Q]); decimal literals of the
      source ([0.85], [1.5]) are the same decimals here.  Rounding,
      infinities and overflow of binary64 are outside this reading; where
      a statement depends on a product rounding to zero, module
      [Binary64] embeds the function over binary64 floats as well.
    - A cell of a numeric pandas column is an [option Q]: [None] is the
      missing value (NaN or None), which is what [pd.notna] tests.
    - A cell of a text column is an [option string].
    - A Python [dict] with string keys is a [gmap string _], a Python
      [set] of strings is a [gset string].
    - A data frame is the list of its rows, in row order. *)

From Stdlib Require Import QArith Qminmax Lqa Lia Sorted.
From Stdlib Require Import PrimFloat Uint63.
From stdpp Require Import gmap strings list.

#[local] Set Warnings "-inexact-float".

Local Open Scope Q_scope.

(** ** Python and pandas primitives *)

Module Py.

(** [min(a, b)]: the first argument unless the second is strictly
    smaller. *)
Definition min (a b : Q) : Q :=
  if Qlt_le_dec b a then b else a.

(** Truth value of a float: anything but zero. *)
Definition truthy (x : Q) : bool := negb (Qeq_bool x 0).

(** [Series.clip(upper=u)] and [Series.clip(lower=l)], cell by cell. *)
Definition clip_upper (u x : Q) : Q :=
  if Qlt_le_dec u x then u else x.

Definition clip_lower (l x : Q) : Q :=
  if Qlt_le_dec x l then l else x.

(** [Series.fillna(d)], cell by cell. *)
Definition fillna (d : Q) (c : option Q) : Q :=
  match c with Some x => x | None => d end.

End Py.

(** ** Assumptions (module constants) *)

Definition AVG_UNIT_SF : Q := 800.
Definition EFFICIENCY : Q := 0.85.
Definition ACRE_SF : Q := 43560.
Definition FLOOR_HEIGHT_FT : Q := 10.
Definition FLOOR_HEIGHT_M : Q := 3.
Definition UTILIZATION_THRESHOLD : Q := 0.8.

Record zoning_entry := { du_ac : Q; far : Q }.

Definition BASELINE_ZONING : gmap string zoning_entry :=
  <["RH-1" := {| du_ac := 30; far := 1.5 |}]>
  (<["RH-2" := {| du_ac := 45; far := 1.8 |}]>
  (<["RH-3" := {| du_ac := 60; far := 2.0 |}]>
  (<["RM-1" := {| du_ac := 90; far := 2.5 |}]>
  (<["RM-2" := {| du_ac := 120; far := 3.0 |}]>
  (<["RM-3" := {| du_ac := 150; far := 3.5 |}]> ∅))))).

Definition FEASIBILITY_LANDMARK : Q := 0.02.
Definition FEASIBILITY_INDIVIDUAL_HISTORIC : Q := 0.10.
Definition FEASIBILITY_HISTORIC_DISTRICT : Q := 0.15.
Definition FEASIBILITY_SURVEYED : Q := 0.18.
Definition FEASIBILITY_STEEP_SLOPE : Q := 0.12.
Definition FEASIBILITY_MODERATE_SLOPE : Q := 0.18.
Definition FEASIBILITY_SMALL_LOT : Q := 0.15.
Definition FEASIBILITY_TIER1 : Q := 0.25.
Definition FEASIBILITY_DEFAULT : Q := 0.20.

(** ** Helpers *)

Definition units_allowed (area_sf du_ac far : Q) : Q :=
  let by_density := du_ac * (area_sf / ACRE_SF) in
  let by_far := (area_sf * far * EFFICIENCY) / AVG_UNIT_SF in
  Py.min by_density by_far.

(** ** Rows of the merged parcel table

    One row of [parcel_all], with the columns the row-wise functions
    read.  [num_buildings] is a count (the number of footprints matched
    to the parcel, 0 after [fillna]); [existing_far] is the column
    computed before utilization. *)

Record parcel_row := {
  parcel_id : nat;
  zoning : option string;
  parcel_area_sf : Q;
  gen_hght : option Q;
  TZ : option string;
  MaxDensity : option Q;
  FloorAreaRatio : option Q;
  historic_type : option string;
  is_steep_slope : bool;
  is_moderate_slope : bool;
  num_buildings : nat;
  existing_far : Q
}.

(** ** Utilization against the upzoned FAR *)

Definition get_sb79_utilization (row : parcel_row) : Q :=
  let existing := existing_far row in
  if Qeq_bool existing 0 then 0.0
  else
    match FloorAreaRatio row with
    | Some sb79_far =>
        if Qlt_le_dec 0 sb79_far then existing / sb79_far else 0.0
    | None => 0.0
    end.

Definition utilization (row : parcel_row) : Q :=
  Py.clip_upper 2.0 (get_sb79_utilization row).

Definition is_highly_utilized (row : parcel_row) : bool :=
  if Qlt_le_dec UTILIZATION_THRESHOLD (utilization row) then true else false.

(** [parcel_all = parcel_all[~parcel_all["is_highly_utilized"]]] *)
Definition exclude_highly_utilized (rows : list parcel_row) : list parcel_row :=
  List.filter (fun row => negb (is_highly_utilized row)) rows.

(** The tier FAR is missing or not positive: the parcel is in no tier
    zone that grants floor area. *)
Definition no_tier_far (row : parcel_row) : Prop :=
  match FloorAreaRatio row with
  | Some f => f <= 0
  | None => True
  end.

(** ** Baseline capacity *)

(** The first half of [baseline_units]: the FAR derived from the height
    district, with the special codes (1000 and above) capped at 400 ft. *)
Definition height_based_far (gen_hght_ : option Q) : Q :=
  match gen_hght_ with
  | Some height_ft =>
      if Qlt_le_dec 0 height_ft then
        let height_ft := if Qlt_le_dec height_ft 1000 then height_ft else 400 in
        let max_floors := height_ft / FLOOR_HEIGHT_FT in
        max_floors * 0.8
      else 2.0
  | None => 2.0
  end.

(** [zone in BASELINE_ZONING] followed by [BASELINE_ZONING[zone]]; a
    missing zoning code is in no dict. *)
Definition zone_lookup (zone : option string) : option zoning_entry :=
  match zone with
  | Some z => BASELINE_ZONING !! z
  | None => None
  end.

(** The three [return] statements of [baseline_units]. *)
Inductive baseline_branch := ZoningTable | HeightOnly | Fallback.

(** [baseline_units], each result tagged with the [return] that
    produced it. *)
Definition baseline_units_traced (row : parcel_row) : baseline_branch * Q :=
  let zone := zoning row in
  let area_sf := parcel_area_sf row in
  let hbf := height_based_far (gen_hght row) in
  match zone_lookup zone with
  | Some z =>
      let effective_far := far z in
      let effective_far :=
        if Qlt_le_dec hbf effective_far then hbf else effective_far in
      (ZoningTable, units_allowed area_sf (du_ac z) effective_far)
  | None =>
      if Py.truthy hbf then (HeightOnly, units_allowed area_sf 100 hbf)
      else (Fallback, 0.0)
  end.

Definition baseline_units (row : parcel_row) : Q :=
  snd (baseline_units_traced row).

(** ** Upzoned capacity *)

Definition sb79_units (row : parcel_row) : Q :=
  match MaxDensity row, FloorAreaRatio row with
  | Some d, Some f => units_allowed (parcel_area_sf row) d f
  | _, _ => 0.0
  end.

(** ** Added capacity *)

(** [(sb79_units - baseline_units).clip(lower=0)], on one pair of cells. *)
Definition added_units (sb79 baseline : Q) : Q :=
  Py.clip_lower 0 (sb79 - baseline).

Definition added_units_theoretical (row : parcel_row) : Q :=
  added_units (sb79_units row) (baseline_units row).

(** ** Feasibility factors with constraints *)

(** [historic_type == name] on a text cell. *)
Definition cell_is (c : option string) (name : string) : bool :=
  bool_decide (c = Some name).

Definition feasibility (row : parcel_row) : Q :=
  let historic_type_ := historic_type row in
  if cell_is historic_type_ "landmark" then FEASIBILITY_LANDMARK
  else if cell_is historic_type_ "individual" then FEASIBILITY_INDIVIDUAL_HISTORIC
  else if cell_is historic_type_ "district" then FEASIBILITY_HISTORIC_DISTRICT
  else if cell_is historic_type_ "surveyed" then FEASIBILITY_SURVEYED
  else
    let has_buildings := Nat.ltb 0 (num_buildings row) in
    if is_steep_slope row && negb has_buildings then FEASIBILITY_STEEP_SLOPE
    else if is_moderate_slope row && negb has_buildings then FEASIBILITY_MODERATE_SLOPE
    else if Qlt_le_dec (parcel_area_sf row) 2500 then FEASIBILITY_SMALL_LOT
    else if cell_is (TZ row) "T1Z1" || cell_is (TZ row) "T1Z2" then FEASIBILITY_TIER1
    else FEASIBILITY_DEFAULT.

Definition added_units_realistic (row : parcel_row) : Q :=
  added_units_theoretical row * feasibility row.

(** The decision table as the design document writes it: an ordered list
    of (predicate, factor) pairs read top to bottom, with a default. *)
Definition feasibility_rule : Type := (parcel_row -> bool) * Q.

Definition feasibility_table : list feasibility_rule :=
  [ (fun p => cell_is (historic_type p) "landmark", 0.02);
    (fun p => cell_is (historic_type p) "individual", 0.10);
    (fun p => cell_is (historic_type p) "district", 0.15);
    (fun p => cell_is (historic_type p) "surveyed", 0.18);
    (fun p => is_steep_slope p && Nat.eqb (num_buildings p) 0, 0.12);
    (fun p => is_moderate_slope p && Nat.eqb (num_buildings p) 0, 0.18);
    (fun p => if Qlt_le_dec (parcel_area_sf p) 2500 then true else false, 0.15);
    (fun p => bool_decide (TZ p = Some "T1Z1" \/ TZ p = Some "T1Z2"), 0.25) ].

Fixpoint first_match (rules : list feasibility_rule) (default : Q)
    (p : parcel_row) : Q :=
  match rules with
  | [] => default
  | (applies, factor) :: rest =>
      if applies p then factor else first_match rest default p
  end.

(** The values of [historic_type] that the scorer recognises, and the
    parcels that carry none of them. *)
Definition HISTORIC_TYPES : list string :=
  ["landmark"; "individual"; "district"; "surveyed"].

Definition non_historic (row : parcel_row) : Prop :=
  forall name, In name HISTORIC_TYPES -> historic_type row <> Some name.

(** The same parcel with another building count. *)
Definition with_num_buildings (n : nat) (row : parcel_row) : parcel_row := {|
  parcel_id := parcel_id row;
  zoning := zoning row;
  parcel_area_sf := parcel_area_sf row;
  gen_hght := gen_hght row;
  TZ := TZ row;
  MaxDensity := MaxDensity row;
  FloorAreaRatio := FloorAreaRatio row;
  historic_type := historic_type row;
  is_steep_slope := is_steep_slope row;
  is_moderate_slope := is_moderate_slope row;
  num_buildings := n;
  existing_far := existing_far row
|}.

(** The column [parcel_all["feasibility_factor"]]. *)
Definition feasibility_factor_column (rows : list parcel_row) : list Q :=
  List.map feasibility rows.

(** ** Historic classification *)

Definition INDIVIDUAL_HISTORIC_LAYERS : gset string :=
  {[ "landmarks"; "historic_resources" ]}.
Definition DISTRICT_HISTORIC_LAYERS : gset string :=
  {[ "national_register"; "california_register";
     "article10_districts"; "article11_districts" ]}.
Definition SURVEYED_HISTORIC_LAYERS : gset string :=
  {[ "historic_survey" ]}.

(** Truth value of a set: non-empty. *)
Definition nonempty (s : gset string) : bool := bool_decide (s ≠ ∅).

Definition classify_historic_type (layers : gset string) : option string :=
  if negb (nonempty layers) || Nat.eqb (size layers) 0 then None
  else if bool_decide ("landmarks" ∈ layers) then Some "landmark"
  else if bool_decide ("historic_resources" ∈ layers) then Some "individual"
  else if nonempty (layers ∩ DISTRICT_HISTORIC_LAYERS) then Some "district"
  else if nonempty (layers ∩ SURVEYED_HISTORIC_LAYERS) then Some "surveyed"
  else None.

(** The ladder as the design document writes it: the first rung, from the
    top, whose layer is among the intersected ones. *)
Definition intersected (layers : gset string) (name : string) : bool :=
  bool_decide (name ∈ layers).

Definition historic_ladder (layers : gset string) : option string :=
  if intersected layers "landmarks" then Some "landmark"
  else if intersected layers "historic_resources" then Some "individual"
  else if intersected layers "national_register"
          || intersected layers "california_register"
          || intersected layers "article10_districts"
          || intersected layers "article11_districts" then Some "district"
  else if intersected layers "historic_survey" then Some "surveyed"
  else None.

(** ** Join parcels to the transit tiers *)

Module TierJoin.

Section Columns.

(** The two sort columns arrive as the service delivers them and are
    sorted before anything coerces them, so their values are of the
    column's own type, numbers or text, each with its own order. *)
Context {D F : Type}.
Context (compare_density : D -> D -> comparison).
Context (compare_far : F -> F -> comparison).

(** One row of the left join [parcel_sb79]: the parcel id and the
    attributes of one intersected tier polygon (all missing when the
    parcel intersects none). *)
Record candidate := {
  parcel_id : nat;
  TZ : option string;
  MaxDensity : option D;
  FloorAreaRatio : option F
}.

(** Order of one sort key under [ascending=False, na_position="last"]:
    [Lt] when [a] is placed before [b]. *)
Definition key_compare {V : Type} (compare_values : V -> V -> comparison)
    (a b : option V) : comparison :=
  match a, b with
  | Some x, Some y => compare_values y x
  | Some _, None => Lt
  | None, Some _ => Gt
  | None, None => Eq
  end.

(** [by=["MaxDensity", "FloorAreaRatio"]]: the second key decides among
    rows that tie on the first. *)
Definition row_compare (r1 r2 : candidate) : comparison :=
  match key_compare compare_density (MaxDensity r1) (MaxDensity r2) with
  | Eq => key_compare compare_far (FloorAreaRatio r1) (FloorAreaRatio r2)
  | c => c
  end.

Definition not_after (r1 r2 : candidate) : bool :=
  match row_compare r1 r2 with Gt => false | _ => true end.

(** [sort_values] on several keys is a stable sort: rows that tie on
    every key keep their relative order. *)
Fixpoint insert_row (r : candidate) (sorted : list candidate)
    : list candidate :=
  match sorted with
  | [] => [r]
  | x :: rest =>
      if not_after r x then r :: x :: rest else x :: insert_row r rest
  end.

Fixpoint sort_values (rows : list candidate) : list candidate :=
  match rows with
  | [] => []
  | r :: rest => insert_row r (sort_values rest)
  end.

(** [drop_duplicates("parcel_id")]: keep the first row of every id. *)
Fixpoint drop_duplicates_from (seen : gset nat) (rows : list candidate)
    : list candidate :=
  match rows with
  | [] => []
  | r :: rest =>
      if bool_decide (parcel_id r ∈ seen) then drop_duplicates_from seen rest
      else r :: drop_duplicates_from ({[ parcel_id r ]} ∪ seen) rest
  end.

Definition drop_duplicates (rows : list candidate) : list candidate :=
  drop_duplicates_from ∅ rows.

Definition keep_most_permissive (rows : list candidate) : list candidate :=
  drop_duplicates (sort_values rows).

(** The rows of one parcel. *)
Definition rows_of (pid : nat) (rows : list candidate) : list candidate :=
  List.filter (fun r => Nat.eqb (parcel_id r) pid) rows.

Definition has_id (pid : nat) (r : candidate) : bool :=
  Nat.eqb (parcel_id r) pid.

(** The first row of a parcel in a table, as a table of at most one
    row. *)
Definition first_of (pid : nat) (rows : list candidate) : list candidate :=
  match List.find (has_id pid) rows with
  | Some w => [w]
  | None => []
  end.

End Columns.

Arguments candidate : clear implicits.

(** Numeric columns are ordered as numbers, text columns as Python
    orders strings, character by character. *)
Definition compare_numbers : Q -> Q -> comparison := Qcompare.
Definition compare_text : string -> string -> comparison := String.compare.

(** The order in the design document's words: greatest density first,
    ties broken by greatest FAR, missing values last. *)
Definition strictly_greater (a b : option Q) : Prop :=
  match a, b with
  | Some x, Some y => y < x
  | Some _, None => True
  | None, _ => False
  end.

Definition tie (a b : option Q) : Prop :=
  match a, b with
  | Some x, Some y => x == y
  | None, None => True
  | _, _ => False
  end.

Definition at_least_as_permissive (w c : candidate Q Q) : Prop :=
  strictly_greater (MaxDensity w) (MaxDensity c)
  \/ (tie (MaxDensity w) (MaxDensity c)
      /\ (strictly_greater (FloorAreaRatio w) (FloorAreaRatio c)
          \/ tie (FloorAreaRatio w) (FloorAreaRatio c))).

(** The rows of a table listed from most to least permissive. *)
Definition ranked : list (candidate Q Q) -> Prop :=
  StronglySorted at_least_as_permissive.

(** Parcel 7 crosses four tier polygons, one of them without a
    density; parcel 8 crosses none. *)
Definition sample_join : list (candidate Q Q) := [
  {| parcel_id := 7; TZ := Some "T2Z1";
     MaxDensity := Some 60; FloorAreaRatio := Some 2.5 |};
  {| parcel_id := 7; TZ := Some "T1Z2";
     MaxDensity := Some 100; FloorAreaRatio := Some 3.0 |};
  {| parcel_id := 8; TZ := None;
     MaxDensity := None; FloorAreaRatio := None |};
  {| parcel_id := 7; TZ := Some "T1Z1";
     MaxDensity := Some 100; FloorAreaRatio := Some 3.5 |};
  {| parcel_id := 7; TZ := Some "T3Z1";
     MaxDensity := None; FloorAreaRatio := Some 9 |} ].

(** Parcel 7 crosses a tier of 80 units/acre and a tier of 120
    units/acre: the join as the service delivers it when the two
    attributes are numbers, and when they are text. *)
Definition two_tiers_as_numbers : list (candidate Q Q) := [
  {| parcel_id := 7; TZ := Some "T2Z1";
     MaxDensity := Some 80; FloorAreaRatio := Some 3.0 |};
  {| parcel_id := 7; TZ := Some "T1Z1";
     MaxDensity := Some 120; FloorAreaRatio := Some 3.5 |} ].

Definition two_tiers_as_text : list (candidate string string) := [
  {| parcel_id := 7; TZ := Some "T2Z1";
     MaxDensity := Some "80"; FloorAreaRatio := Some "3.0" |};
  {| parcel_id := 7; TZ := Some "T1Z1";
     MaxDensity := Some "120"; FloorAreaRatio := Some "3.5" |} ].

End TierJoin.

(** ** Existing built area: building heights *)

Module Footprints.

(** A cell of a raw attribute column, as [pd.to_numeric] sees it: a
    number (or text that reads as one), any other content, or nothing. *)
Inductive raw_cell :=
| Number (x : Q)
| NotNumeric
| Missing.

(** [pd.to_numeric(_, errors="coerce")] on one cell. *)
Definition to_numeric (c : raw_cell) : option Q :=
  match c with
  | Number x => Some x
  | NotNumeric | Missing => None
  end.

(** The footprint layer: its number of rows and the two height columns,
    each of which the layer may or may not have. *)
Record buildings := {
  n_rows : nat;
  hgt_median_m : option (list raw_cell);
  hgt_mediancm : option (list raw_cell)
}.

Definition height_m (b : buildings) : list Q :=
  let column :=
    match hgt_median_m b with
    | Some meters => List.map to_numeric meters
    | None =>
        match hgt_mediancm b with
        | Some centimeters =>
            List.map (fun c => option_map (fun x => x / 100) (to_numeric c))
                     centimeters
        | None => repeat (Some 6.0) (n_rows b)
        end
    end in
  List.map (Py.fillna 6.0) column.

Definition est_floors (b : buildings) : list Q :=
  List.map (fun h => Py.clip_lower 1 (h / FLOOR_HEIGHT_M)) (height_m b).

(** What [height_m] holds for a cell of the meters column. *)
Definition meters_or_default (c : raw_cell) : Q :=
  match c with
  | Number x => x
  | NotNumeric | Missing => 6.0
  end.

(** Two footprints; the first has no height in meters but 950 cm. *)
Definition sample_meters : list raw_cell := [Missing; Number 12].
Definition sample_centimeters : list raw_cell := [Number 950; Number 1200].

End Footprints.

(** ** Baseline utilization, for reference *)

(** The zoning FAR that [get_baseline_far] falls back on when there is
    no usable height. *)
Definition zoning_far_or_default (zone : option string) : Q :=
  match zone_lookup zone with
  | Some z => far z
  | None => 1.5
  end.

Definition get_baseline_far (row : parcel_row) : Q :=
  match gen_hght row with
  | Some height_ft =>
      if Qlt_le_dec 0 height_ft then
        let max_floors := height_ft / FLOOR_HEIGHT_FT in
        max_floors * 0.8
      else zoning_far_or_default (zoning row)
  | None => zoning_far_or_default (zoning row)
  end.

Definition baseline_utilization (row : parcel_row) : Q :=
  Py.clip_upper 2.0 (existing_far row / get_baseline_far row).

(** ** The three exclusions *)

Definition MAX_PARCEL_SQFT : Q := 43560.

(** [parcel_all["is_open_space"] = parcel_all["parcel_id"].isin(ids)] *)
Definition is_open_space (openspace_parcel_ids : gset nat)
    (row : parcel_row) : bool :=
  bool_decide (parcel_id row ∈ openspace_parcel_ids).

Definition exclude_open_space (openspace_parcel_ids : gset nat)
    (rows : list parcel_row) : list parcel_row :=
  List.filter (fun row => negb (is_open_space openspace_parcel_ids row)) rows.

(** [parcel_all[parcel_all["parcel_area_sf"] <= MAX_PARCEL_SQFT]] *)
Definition within_max_area (row : parcel_row) : bool :=
  if Qlt_le_dec MAX_PARCEL_SQFT (parcel_area_sf row) then false else true.

Definition exclude_large (rows : list parcel_row) : list parcel_row :=
  List.filter within_max_area rows.

(** The exclusions in the order of the script, with the three counts it
    prints and the table that goes on to the capacity model. *)
Record exclusion_report := {
  excluded_openspace : nat;
  excluded_large : nat;
  excluded_utilized : nat;
  remaining : list parcel_row
}.

Definition apply_exclusions (openspace_parcel_ids : gset nat)
    (parcel_all : list parcel_row) : exclusion_report :=
  let initial_count := length parcel_all in
  let parcel_all := exclude_open_space openspace_parcel_ids parcel_all in
  let excluded_openspace_ := (initial_count - length parcel_all)%nat in
  let initial_count := length parcel_all in
  let parcel_all := exclude_large parcel_all in
  let excluded_large_ := (initial_count - length parcel_all)%nat in
  let initial_count := length parcel_all in
  let parcel_all := exclude_highly_utilized parcel_all in
  let excluded_utilized_ := (initial_count - length parcel_all)%nat in
  {| excluded_openspace := excluded_openspace_;
     excluded_large := excluded_large_;
     excluded_utilized := excluded_utilized_;
     remaining := parcel_all |}.

(** A parcel that passes all three tests. *)
Definition survives (openspace_parcel_ids : gset nat) (row : parcel_row) : bool :=
  negb (is_open_space openspace_parcel_ids row)
  && within_max_area row
  && negb (is_highly_utilized row).

(** ** Sample parcels *)

(** The worked example of the design document: 4,000 sq ft, RH-2, no
    height data, tier attributes (80 units/acre, FAR 3.0), 2,000 sq ft
    built. *)
Definition sample_parcel : parcel_row := {|
  parcel_id := 0;
  zoning := Some "RH-2";
  parcel_area_sf := 4000;
  gen_hght := None;
  TZ := Some "T2Z1";
  MaxDensity := Some 80;
  FloorAreaRatio := Some 3.0;
  historic_type := None;
  is_steep_slope := false;
  is_moderate_slope := false;
  num_buildings := 1;
  existing_far := 0.5
|}.

(** A commercial parcel in a 65 ft height district, outside every tier,
    built to four times its lot area. *)
Definition commercial_parcel : parcel_row := {|
  parcel_id := 1;
  zoning := Some "NC-3";
  parcel_area_sf := 3000;
  gen_hght := Some 65;
  TZ := None;
  MaxDensity := None;
  FloorAreaRatio := None;
  historic_type := None;
  is_steep_slope := false;
  is_moderate_slope := false;
  num_buildings := 2;
  existing_far := 4
|}.

(** A vacant lot on the steep-slope layer, and the same lot with one
    building on it. *)
Definition steep_parcel (buildings : nat) : parcel_row := {|
  parcel_id := 2;
  zoning := Some "RH-1";
  parcel_area_sf := 3000;
  gen_hght := Some 40;
  TZ := Some "T2Z2";
  MaxDensity := Some 60;
  FloorAreaRatio := Some 2.5;
  historic_type := None;
  is_steep_slope := true;
  is_moderate_slope := false;
  num_buildings := buildings;
  existing_far := 0
|}.

(** An RH-1 lot of a third of an acre outside every tier: ten baseline
    units, no upzoned units. *)
Definition untiered_parcel : parcel_row := {|
  parcel_id := 3;
  zoning := Some "RH-1";
  parcel_area_sf := 14520;
  gen_hght := None;
  TZ := None;
  MaxDensity := None;
  FloorAreaRatio := None;
  historic_type := None;
  is_steep_slope := false;
  is_moderate_slope := false;
  num_buildings := 0;
  existing_far := 0
|}.

(** ** Joins, merges and deduplication of tables *)

Module Frame.

Section Keyed.

Context {A : Type} (key : A -> nat).

(** [drop_duplicates(key)]: the first row of every key, in row order. *)
Fixpoint drop_duplicates_by_from (seen : gset nat) (rows : list A) : list A :=
  match rows with
  | [] => []
  | r :: rest =>
      if bool_decide (key r ∈ seen) then drop_duplicates_by_from seen rest
      else r :: drop_duplicates_by_from ({[ key r ]} ∪ seen) rest
  end.

Definition drop_duplicates_by (rows : list A) : list A :=
  drop_duplicates_by_from ∅ rows.

(** The rows of one key, and the first of them as a table of at most
    one row. *)
Definition rows_with (k : nat) (rows : list A) : list A :=
  List.filter (fun r => Nat.eqb (key r) k) rows.

Definition first_with (k : nat) (rows : list A) : list A :=
  match List.find (fun r => Nat.eqb (key r) k) rows with
  | Some w => [w]
  | None => []
  end.

End Keyed.

Section Join.

Context {L R : Type} (matches : L -> R -> bool).

(** The rows a left join makes of one left row: one per matching right
    row, in the order of the right table, or one with nothing attached
    when no right row matches. *)
Definition join_row (l : L) (right : list R) : list (L * option R) :=
  match List.filter (matches l) right with
  | [] => [(l, None)]
  | ms => List.map (fun r => (l, Some r)) ms
  end.

(** [gpd.sjoin(left, right, how="left", predicate=...)], with the
    spatial predicate as [matches], and [left.merge(right, how="left")],
    with equality of the key columns as [matches]. *)
Definition left_join (left : list L) (right : list R) : list (L * option R) :=
  List.flat_map (fun l => join_row l right) left.

(** The right row that ends up attached to a left row once the join is
    deduplicated by left key. *)
Definition first_matching (l : L) (right : list R) : option R :=
  List.head (List.filter (matches l) right).

Context (key : L -> nat).

Definition left_key (row : L * option R) : nat := key (fst row).

(** [set(joined[joined[column].notna()]["parcel_id"])] after
    [joined.drop_duplicates("parcel_id")], for a column that every right
    row fills. *)
Definition flagged_ids (joined : list (L * option R)) : gset nat :=
  list_to_set
    (List.map left_key
       (List.filter (fun row => match snd row with Some _ => true | None => false end)
          (drop_duplicates_by left_key joined))).

End Join.

Section Merge.

Context {L R : Type} (left_on : L -> nat) (right_on : R -> nat).

Definition same_key (l : L) (r : R) : bool := Nat.eqb (right_on r) (left_on l).

(** [left.merge(right, on="parcel_id", how="left")] *)
Definition merge_left (left : list L) (right : list R) : list (L * option R) :=
  left_join same_key left right.

End Merge.

End Frame.

(** ** Existing built area per parcel *)

Module BuiltArea.

(** [footprint_area_sqft * est_floors], row by row. *)
Definition gross_floor_area_sqft (footprint_area_sqft : list Q)
    (b : Footprints.buildings) : list Q :=
  List.map (fun af => fst af * snd af)
           (List.combine footprint_area_sqft (Footprints.est_floors b)).

(** One row of [buildings_with_parcel]: a footprint and one parcel it
    intersects, or no parcel. *)
Record matched_building := {
  building_id : nat;
  on_parcel : option nat;
  gross_floor_area : Q
}.

(** One step of [groupby("parcel_id").agg(sum, count)]; rows without a
    parcel belong to no group. *)
Definition add_building (groups : gmap nat (Q * nat)) (r : matched_building)
    : gmap nat (Q * nat) :=
  match on_parcel r with
  | Some p =>
      let '(total, count) := default (0, 0%nat) (groups !! p) in
      <[ p := (total + gross_floor_area r, S count) ]> groups
  | None => groups
  end.

Definition parcel_built_area (buildings_with_parcel : list matched_building)
    : gmap nat (Q * nat) :=
  let buildings_with_parcel :=
    Frame.drop_duplicates_by building_id buildings_with_parcel in
  List.fold_left add_building buildings_with_parcel ∅.

(** The two columns after the left merge and [fillna(0)]. *)
Definition total_built_sqft (groups : gmap nat (Q * nat)) (pid : nat) : Q :=
  match groups !! pid with
  | Some (total, _) => total
  | None => 0
  end.

Definition num_buildings_of (groups : gmap nat (Q * nat)) (pid : nat) : nat :=
  match groups !! pid with
  | Some (_, count) => count
  | None => 0%nat
  end.

(** The footprints attributed to a parcel: the rows, among the first
    rows of each footprint, that name the parcel. *)
Definition to_pid (pid : nat) (r : matched_building) : bool :=
  match on_parcel r with Some p => Nat.eqb p pid | None => false end.

Definition attributed_to (pid : nat) (rows : list matched_building)
    : list matched_building :=
  List.filter (to_pid pid) (Frame.drop_duplicates_by building_id rows).

Fixpoint sum_Q (l : list Q) : Q :=
  match l with
  | [] => 0
  | x :: rest => x + sum_Q rest
  end.

Fixpoint sum_nat (l : list nat) : nat :=
  match l with
  | [] => 0%nat
  | x :: rest => (x + sum_nat rest)%nat
  end.

End BuiltArea.

(** ** Loading and joining the historic layers *)

Module HistoricLayers.

(** The dict [HISTORIC_LAYERS], in the order it is iterated. *)
Definition HISTORIC_LAYERS : list (string * nat) :=
  [ ("historic_resources", 0%nat);
    ("landmarks", 11%nat);
    ("article10_districts", 17%nat);
    ("article11_districts", 16%nat);
    ("national_register", 6%nat);
    ("california_register", 7%nat);
    ("historic_survey", 30%nat) ].

Definition SIGNIFICANT_RATINGS : list string :=
  ["A"; "B"; "C"; "1A"; "1B"; "1C"; "2A"; "2B"; "2C"; "3A"; "3B"; "3C"].

Section Layers.

(** The geometries are left abstract. *)
Context {G : Type}.

Record historic_feature := {
  geometry : G;
  hrrrating : option string;
  ceqacode : option string;
  Rating : option string
}.

(** A downloaded layer: its features and whether it has a [Rating]
    column at all. *)
Record layer_gdf := {
  has_Rating_column : bool;
  features : list historic_feature
}.

(** [gdf["hrrrating"].notna() | (gdf["ceqacode"] == "A")] *)
Definition has_historic_rating (f : historic_feature) : bool :=
  match hrrrating f with Some _ => true | None => false end
  || cell_is (ceqacode f) "A".

(** [gdf["Rating"].isin([...])] *)
Definition has_significant_rating (f : historic_feature) : bool :=
  match Rating f with
  | Some r => bool_decide (r ∈ SIGNIFICANT_RATINGS)
  | None => false
  end.

Definition filter_layer (name : string) (gdf : layer_gdf)
    : list historic_feature :=
  if String.eqb name "historic_resources" then
    List.filter has_historic_rating (features gdf)
  else if String.eqb name "historic_survey" then
    if has_Rating_column gdf
    then List.filter has_significant_rating (features gdf)
    else features gdf
  else features gdf.

(** One turn of the loading loop.  [download] answers [None] when the
    download raises; the features kept get the layer name in their
    [historic_layer] column. *)
Definition load_layer (download : nat -> option layer_gdf)
    (entry : string * nat) : list (historic_feature * string) :=
  match download (snd entry) with
  | Some gdf =>
      List.map (fun f => (f, fst entry)) (filter_layer (fst entry) gdf)
  | None => []
  end.

(** The features of the union that come from one layer. *)
Definition tagged_with (name : string) (t : historic_feature * string) : bool :=
  String.eqb (snd t) name.

Definition is_nonempty {A : Type} (l : list A) : bool :=
  match l with [] => false | _ :: _ => true end.

(** [historic_union]: the concatenation of the layers that gave at least
    one feature, [None] when none did. *)
Definition load_historic_union (download : nat -> option layer_gdf)
    : option (list (historic_feature * string)) :=
  let historic_gdfs :=
    List.filter is_nonempty (List.map (load_layer download) HISTORIC_LAYERS) in
  if is_nonempty historic_gdfs then Some (List.concat historic_gdfs) else None.

Context {P : Type} (parcel_key : P -> nat)
        (intersects : P -> historic_feature * string -> bool).

(** [parcel_historic]: the left join of the parcels with the union. *)
Definition parcel_historic (parcels : list P)
    (historic_union : list (historic_feature * string))
    : list (P * option (historic_feature * string)) :=
  Frame.left_join intersects parcels historic_union.

(** [groupby("parcel_id").agg(set(x.dropna()))] on [historic_layer], read
    at one parcel id. *)
Definition historic_layers_of (pid : nat)
    (joined : list (P * option (historic_feature * string))) : gset string :=
  list_to_set
    (List.flat_map
       (fun row => match snd row with
                   | Some tagged => [snd tagged]
                   | None => []
                   end)
       (Frame.rows_with (Frame.left_key parcel_key) pid joined)).

Definition historic_type_of (pid : nat)
    (joined : list (P * option (historic_feature * string))) : option string :=
  classify_historic_type (historic_layers_of pid joined).

Definition historic_parcel_ids
    (joined : list (P * option (historic_feature * string))) : gset nat :=
  Frame.flagged_ids parcel_key joined.

End Layers.

End HistoricLayers.

(** ** Paginated download *)

Module Download.

Section Paginate.

(** The records are left abstract.  [fetch offset] is what the service
    returns for [resultOffset=offset] (with [resultRecordCount=2000]),
    [total_count] what it returns for [returnCountOnly=true]. *)
Context {A : Type} (fetch : nat -> list A) (total_count : nat).

(** The [while offset < total_count] loop; [fuel] bounds the number of
    requests. *)
Fixpoint paginate (fuel offset : nat) (all_gdfs : list (list A))
    : option (list (list A)) :=
  match fuel with
  | O => None
  | S fuel' =>
      if Nat.ltb offset total_count then
        let gdf := fetch offset in
        if Nat.eqb (length gdf) 0 then Some all_gdfs
        else paginate fuel' (offset + length gdf) (all_gdfs ++ [gdf])
      else Some all_gdfs
  end.

(** The loop has stopped at an offset: the count is reached or the
    service has nothing at that offset. *)
Definition stopped (offset : nat) : Prop :=
  (total_count <= offset)%nat \/ fetch offset = [].

(** What the paginated branch of [download_geojson] ends with: the
    concatenated records, or the [ValueError] it raises. *)
Inductive outcome :=
| Records (combined : list A)
| NoRecordsDownloaded.

Definition download_geojson (fuel : nat) : option outcome :=
  match paginate fuel 0 [] with
  | Some [] => Some NoRecordsDownloaded
  | Some all_gdfs => Some (Records (List.concat all_gdfs))
  | None => None
  end.

End Paginate.

(** A service that holds [data] and answers every request with the next
    [page offset] records. *)
Definition serve {A : Type} (data : list A) (page : nat -> nat)
    (offset : nat) : list A :=
  List.firstn (page offset) (List.skipn offset data).

End Download.

(** ** Sample tables *)

Module Samples.

(** Three parcels, known by their ids, and two layers of districts, each
    district listing the parcels inside it. *)
Definition sample_parcels : list nat := [0%nat; 1%nat; 2%nat].

Definition inside (p : nat) (district : string * list nat) : bool :=
  List.existsb (Nat.eqb p) (snd district).

Definition sample_zoning_districts : list (string * list nat) :=
  [ ("RH-1", [0%nat; 1%nat]); ("RH-2", [1%nat]); ("NC-3", []) ].

Definition sample_height_districts : list (string * list nat) :=
  [ ("40-X", [0%nat]); ("65-A", [0%nat; 2%nat]) ].

Definition parcel_key (p : nat) : nat := p.

(** Footprint 0 straddles parcels 5 and 6, footprint 1 is on parcel 5,
    footprint 2 on no parcel. *)
Definition sample_buildings_with_parcel : list BuiltArea.matched_building :=
  [ {| BuiltArea.building_id := 0; BuiltArea.on_parcel := Some 5%nat;
       BuiltArea.gross_floor_area := 1000 |};
    {| BuiltArea.building_id := 0; BuiltArea.on_parcel := Some 6%nat;
       BuiltArea.gross_floor_area := 1000 |};
    {| BuiltArea.building_id := 1; BuiltArea.on_parcel := Some 5%nat;
       BuiltArea.gross_floor_area := 500 |};
    {| BuiltArea.building_id := 2; BuiltArea.on_parcel := None;
       BuiltArea.gross_floor_area := 300 |} ].

Definition sample_footprints : Footprints.buildings :=
  {| Footprints.n_rows := 2;
     Footprints.hgt_median_m := Some Footprints.sample_meters;
     Footprints.hgt_mediancm := None |}.

Definition sample_footprint_areas : list Q := [100; 250].

(** Historic features with a number for a geometry; a parcel intersects
    the features that carry its id. *)
Definition sample_feature (g : nat) (hrr ceqa : option string)
    : @HistoricLayers.historic_feature nat :=
  {| HistoricLayers.geometry := g;
     HistoricLayers.hrrrating := hrr;
     HistoricLayers.ceqacode := ceqa;
     HistoricLayers.Rating := None |}.

(** The historic-resources layer has a rated building on parcel 0 and an
    unrated one on parcel 1; the landmarks layer has a landmark on parcel
    0; the download of the survey layer fails; the other layers are
    empty. *)
Definition sample_download (layer_id : nat)
    : option (@HistoricLayers.layer_gdf nat) :=
  match layer_id with
  | 0%nat =>
      Some {| HistoricLayers.has_Rating_column := false;
              HistoricLayers.features :=
                [ sample_feature 0 (Some "3S") None;
                  sample_feature 1 None (Some "C") ] |}
  | 11%nat =>
      Some {| HistoricLayers.has_Rating_column := false;
              HistoricLayers.features := [ sample_feature 0 None None ] |}
  | 30%nat => None
  | _ =>
      Some {| HistoricLayers.has_Rating_column := false;
              HistoricLayers.features := [] |}
  end.

Definition sample_historic_union
    : list (@HistoricLayers.historic_feature nat * string) :=
  [ (sample_feature 0 (Some "3S") None, "historic_resources");
    (sample_feature 0 None None, "landmarks") ].

Definition on_feature (p : nat)
    (t : @HistoricLayers.historic_feature nat * string) : bool :=
  Nat.eqb p (HistoricLayers.geometry (fst t)).

(** A service with five records that hands out two at a time. *)
Definition sample_data : list nat := [10%nat; 20%nat; 30%nat; 40%nat; 50%nat].

Definition two_at_a_time (offset : nat) : nat := 2%nat.

(** An RH-1 parcel in a 20 ft height district. *)
Definition low_height_parcel : parcel_row := {|
  parcel_id := 4;
  zoning := Some "RH-1";
  parcel_area_sf := 3000;
  gen_hght := Some 20;
  TZ := None;
  MaxDensity := None;
  FloorAreaRatio := None;
  historic_type := None;
  is_steep_slope := false;
  is_moderate_slope := false;
  num_buildings := 1;
  existing_far := 1
|}.

(** A parcel in a tier of FAR 3.0 that is built to FAR 2.7. *)
Definition built_out_parcel : parcel_row := {|
  parcel_id := 5;
  zoning := Some "RM-1";
  parcel_area_sf := 5000;
  gen_hght := Some 8888;
  TZ := Some "T1Z1";
  MaxDensity := Some 100;
  FloorAreaRatio := Some 3.0;
  historic_type := Some "landmark";
  is_steep_slope := false;
  is_moderate_slope := false;
  num_buildings := 1;
  existing_far := 2.7
|}.

(** A parcel on the survey layer only. *)
Definition surveyed_parcel : parcel_row := {|
  parcel_id := 6;
  zoning := Some "RH-2";
  parcel_area_sf := 2000;
  gen_hght := Some 40;
  TZ := Some "T1Z2";
  MaxDensity := Some 100;
  FloorAreaRatio := Some 3.5;
  historic_type := Some "surveyed";
  is_steep_slope := true;
  is_moderate_slope := false;
  num_buildings := 0;
  existing_far := 0
|}.

(** A table with two rows of key 0. *)
Definition sample_rows : list (nat * string) :=
  [ (0%nat, "first"); (1%nat, "only"); (0%nat, "second") ].

Definition row_key (row : nat * string) : nat := fst row.

End Samples.

(** A list of different numbers has no duplicates. *)
Ltac distinct_numbers :=
  vm_compute;
  repeat (apply List.NoDup_cons; [simpl; intuition lia |]);
  apply List.NoDup_nil.

(** ** Baseline capacity over binary64 floats

    [baseline_units] once more, with the floats of the source as
    binary64 floats and a missing height as NaN, for the statements that
    depend on rounding to zero. *)

Module Binary64.

Local Open Scope float_scope.

Definition AVG_UNIT_SF : float := 800.
Definition EFFICIENCY : float := 0.85.
Definition ACRE_SF : float := 43560.
Definition FLOOR_HEIGHT_FT : float := 10.

Record zoning_entry := { du_ac : float; far : float }.

Definition BASELINE_ZONING : gmap string zoning_entry :=
  <["RH-1" := {| du_ac := 30; far := 1.5 |}]>
  (<["RH-2" := {| du_ac := 45; far := 1.8 |}]>
  (<["RH-3" := {| du_ac := 60; far := 2.0 |}]>
  (<["RM-1" := {| du_ac := 90; far := 2.5 |}]>
  (<["RM-2" := {| du_ac := 120; far := 3.0 |}]>
  (<["RM-3" := {| du_ac := 150; far := 3.5 |}]> ∅))))).

(** [min(a, b)] *)
Definition min (a b : float) : float := if b <? a then b else a.

(** Truth value of a float: anything but zero (NaN is true). *)
Definition truthy (x : float) : bool := negb (x =? 0).

(** [pd.notna(x)] *)
Definition notna (x : float) : bool := negb (PrimFloat.is_nan x).

Definition units_allowed (area_sf du_ac far : float) : float :=
  let by_density := du_ac * (area_sf / ACRE_SF) in
  let by_far := (area_sf * far * EFFICIENCY) / AVG_UNIT_SF in
  min by_density by_far.

(** The columns [baseline_units] reads. *)
Record parcel_row := {
  zoning : option string;
  parcel_area_sf : float;
  gen_hght : float
}.

Definition height_based_far (height_ft : float) : float :=
  if notna height_ft && (0 <? height_ft) then
    let height_ft := if 1000 <=? height_ft then 400 else height_ft in
    let max_floors := height_ft / FLOOR_HEIGHT_FT in
    max_floors * 0.8
  else 2.0.

Definition zone_lookup (zone : option string) : option zoning_entry :=
  match zone with
  | Some z => BASELINE_ZONING !! z
  | None => None
  end.

Definition baseline_units_traced (row : parcel_row) : baseline_branch * float :=
  let zone := zoning row in
  let area_sf := parcel_area_sf row in
  let hbf := height_based_far (gen_hght row) in
  match zone_lookup zone with
  | Some z =>
      let effective_far := far z in
      let effective_far :=
        if hbf <? effective_far then hbf else effective_far in
      (ZoningTable, units_allowed area_sf (du_ac z) effective_far)
  | None =>
      if truthy hbf then (HeightOnly, units_allowed area_sf 100 hbf)
      else (Fallback, 0)
  end.

Definition baseline_units (row : parcel_row) : float :=
  snd (baseline_units_traced row).





End Binary64.

(** ** Properties *)

Section UnitsAllowed.

Lemma py_min_Qmin (a b : Q) : Py.min a b = Qmin a b.
Proof.
  unfold Py.min, Qmin, GenericMinMax.gmin.
  destruct (Qlt_le_dec b a) as [Hlt | Hle].
  - apply Qgt_alt in Hlt. now rewrite Hlt.
  - destruct (a ?= b) eqn:Hc; try reflexivity.
    apply Qgt_alt in Hc. exfalso. revert Hc. apply Qle_not_lt. exact Hle.
Qed.

Lemma Qmin_Qeq (a a' b b' : Q) :
  a == a' -> b == b' -> Qmin a b == Qmin a' b'.
Proof.
  intros Ha Hb.
  destruct (Q.min_spec a b) as [[H1 E1] | [H1 E1]];
    destruct (Q.min_spec a' b') as [[H2 E2] | [H2 E2]];
    rewrite E1, E2; lra.
Qed.

(** C1: [units_allowed] is the smaller of the density cap and the
    floor-area cap, and on a 5000 sq ft lot at 30 units/acre and FAR 1.5
    the density cap (150000/43560, about 3.44) binds, being strictly
    below the floor-area cap (about 7.97). *)
Theorem units_allowed_is_min_of_caps :
  (forall area density far_,
      units_allowed area density far_
      == Qmin (density * area / 43560) (area * far_ * 0.85 / 800))
  /\ units_allowed 5000 30 1.5 == 30 * 5000 / 43560
  /\ 30 * 5000 / 43560 < 5000 * 1.5 * 0.85 / 800.
Proof.
  split; [| split].
  - intros area density far_. unfold units_allowed.
    rewrite py_min_Qmin. apply Qmin_Qeq.
    + unfold ACRE_SF. field.
    + unfold EFFICIENCY, AVG_UNIT_SF. reflexivity.
  - vm_compute. reflexivity.
  - vm_compute. reflexivity.
Qed.


End UnitsAllowed.

Section Baseline.

Lemma height_based_far_pos (h : option Q) : 0 < height_based_far h.
Proof.
  unfold height_based_far, FLOOR_HEIGHT_FT.
  destruct h as [x |]; [| reflexivity].
  destruct (Qlt_le_dec 0 x) as [Hpos | _]; [| reflexivity].
  destruct (Qlt_le_dec x 1000) as [_ | _].
  - apply Qmult_lt_0_compat; [| reflexivity].
    apply Qlt_shift_div_l; [reflexivity | lra].
  - reflexivity.
Qed.

Lemma height_based_far_truthy (h : option Q) :
  Py.truthy (height_based_far h) = true.
Proof.
  unfold Py.truthy.
  destruct (Qeq_bool (height_based_far h) 0) eqn:Hz; [| reflexivity].
  apply Qeq_bool_eq in Hz.
  pose proof (height_based_far_pos h) as Hpos. lra.
Qed.

Lemma baseline_zoning_pos (code : string) (z : zoning_entry) :
  BASELINE_ZONING !! code = Some z -> 0 < du_ac z /\ 0 < far z.
Proof.
  unfold BASELINE_ZONING. intros H.
  repeat (rewrite lookup_insert in H; case_decide;
          [injection H as <-; split; reflexivity |]).
  rewrite lookup_empty in H. discriminate.
Qed.

Lemma zone_lookup_pos (zone : option string) (z : zoning_entry) :
  zone_lookup zone = Some z -> 0 < du_ac z /\ 0 < far z.
Proof.
  destruct zone as [code |]; simpl; [apply baseline_zoning_pos | discriminate].
Qed.

Lemma baseline_units_in_table (row : parcel_row) (z : zoning_entry) :
  zone_lookup (zoning row) = Some z ->
  baseline_units_traced row
  = (ZoningTable,
     units_allowed (parcel_area_sf row) (du_ac z)
       (Qmin (far z) (height_based_far (gen_hght row)))).
Proof.
  intros Hz. unfold baseline_units_traced. rewrite Hz. cbv zeta.
  rewrite <- py_min_Qmin. reflexivity.
Qed.

Lemma baseline_units_not_in_table (row : parcel_row) :
  zone_lookup (zoning row) = None ->
  baseline_units_traced row
  = (HeightOnly,
     units_allowed (parcel_area_sf row) 100 (height_based_far (gen_hght row))).
Proof.
  intros Hz. unfold baseline_units_traced. rewrite Hz. cbv zeta.
  rewrite height_based_far_truthy. reflexivity.
Qed.

(** C2: the height-derived FAR is (height / 10) x 0.8 with heights of
    1000 and above read as 400 ft, and 2.0 when the height is missing or
    not positive; a zoning code of the table gives
    [units_allowed area density (min table-FAR height-FAR)], any other
    zoning code gives [units_allowed area 100 height-FAR]. *)
Theorem baseline_units_formula :
  (forall h, 0 < h -> h < 1000 ->
      height_based_far (Some h) = (h / 10) * 0.8)
  /\ (forall h, 1000 <= h ->
      height_based_far (Some h) = (400 / 10) * 0.8)
  /\ (forall h, h <= 0 -> height_based_far (Some h) = 2.0)
  /\ height_based_far None = 2.0
  /\ (forall row code z,
      zoning row = Some code -> BASELINE_ZONING !! code = Some z ->
      baseline_units row
      = units_allowed (parcel_area_sf row) (du_ac z)
          (Qmin (far z) (height_based_far (gen_hght row))))
  /\ (forall row,
      (forall code, zoning row = Some code -> BASELINE_ZONING !! code = None) ->
      baseline_units row
      = units_allowed (parcel_area_sf row) 100
          (height_based_far (gen_hght row))).
Proof.
  repeat split.
  - intros h Hpos Hlt. unfold height_based_far, FLOOR_HEIGHT_FT.
    destruct (Qlt_le_dec 0 h); [| lra].
    destruct (Qlt_le_dec h 1000); [reflexivity | lra].
  - intros h Hge. unfold height_based_far, FLOOR_HEIGHT_FT.
    destruct (Qlt_le_dec 0 h); [| lra].
    destruct (Qlt_le_dec h 1000); [lra | reflexivity].
  - intros h Hle. unfold height_based_far.
    destruct (Qlt_le_dec 0 h); [lra | reflexivity].
  - intros row code z Hcode Hz. unfold baseline_units.
    rewrite (baseline_units_in_table row z); [reflexivity |].
    rewrite Hcode. exact Hz.
  - intros row Habsent. unfold baseline_units.
    rewrite baseline_units_not_in_table; [reflexivity |].
    destruct (zoning row) as [code |]; simpl; [| reflexivity].
    apply Habsent. reflexivity.
Qed.

Lemma baseline_units_formula_witness :
  height_based_far (Some 65) = (65 / 10) * 0.8
  /\ height_based_far (Some 8888) = (400 / 10) * 0.8
  /\ height_based_far (Some (-1)) = 2.0
  /\ baseline_units sample_parcel
     = units_allowed 4000 45 (Qmin 1.8 (height_based_far None))
  /\ baseline_units commercial_parcel
     = units_allowed 3000 100 (height_based_far (Some 65)).
Proof.
  destruct baseline_units_formula
    as (Hlow & Hhigh & Hneg & _ & Htable & Hother).
  split; [apply Hlow; reflexivity |].
  split; [apply Hhigh; discriminate |].
  split; [apply Hneg; discriminate |].
  split.
  - apply (Htable sample_parcel "RH-2" {| du_ac := 45; far := 1.8 |});
      reflexivity.
  - apply (Hother commercial_parcel).
    intros code Hcode. injection Hcode as <-. reflexivity.
Defined.













End Baseline.

Section AddedCapacity.

Lemma clip_lower_Qmax (l x : Q) : Py.clip_lower l x == Qmax l x.
Proof.
  unfold Py.clip_lower.
  destruct (Qlt_le_dec x l) as [Hlt | Hle].
  - rewrite Q.max_l; [reflexivity | lra].
  - rewrite Q.max_r; [reflexivity | exact Hle].
Qed.

Lemma clip_lower_ge (l x : Q) : l <= Py.clip_lower l x.
Proof.
  unfold Py.clip_lower. destruct (Qlt_le_dec x l); lra.
Qed.

(** C7: the added theoretical capacity is max(0, upzoned - baseline),
    so it is never negative; with no upzoned units and ten baseline
    units it is zero. *)
Theorem added_units_theoretical_clamped :
  (forall upzoned baseline,
      added_units upzoned baseline == Qmax 0 (upzoned - baseline)
      /\ 0 <= added_units upzoned baseline)
  /\ (forall row,
      added_units_theoretical row
      == Qmax 0 (sb79_units row - baseline_units row)
      /\ 0 <= added_units_theoretical row)
  /\ added_units 0 10 == 0
  /\ sb79_units untiered_parcel == 0
  /\ baseline_units untiered_parcel == 10
  /\ added_units_theoretical untiered_parcel == 0.
Proof.
  split; [| split].
  - intros upzoned baseline. unfold added_units.
    split; [apply clip_lower_Qmax | apply clip_lower_ge].
  - intros row. unfold added_units_theoretical, added_units.
    split; [apply clip_lower_Qmax | apply clip_lower_ge].
  - repeat split; vm_compute; reflexivity.
Qed.

End AddedCapacity.

Section Utilization.

Lemma clip_upper_Qmin (u x : Q) : Py.clip_upper u x == Qmin x u.
Proof.
  unfold Py.clip_upper.
  destruct (Qlt_le_dec u x) as [Hlt | Hle].
  - rewrite Q.min_r; [reflexivity | lra].
  - rewrite Q.min_l; [reflexivity | exact Hle].
Qed.

Lemma get_sb79_utilization_in_tier (row : parcel_row) (f : Q) :
  FloorAreaRatio row = Some f -> 0 < f ->
  get_sb79_utilization row == existing_far row / f.
Proof.
  intros Hf Hpos. unfold get_sb79_utilization. rewrite Hf.
  destruct (Qeq_bool (existing_far row) 0) eqn:Hz.
  - apply Qeq_bool_eq in Hz. rewrite Hz. unfold Qdiv. ring.
  - destruct (Qlt_le_dec 0 f); [reflexivity | lra].
Qed.

Lemma get_sb79_utilization_no_tier (row : parcel_row) :
  no_tier_far row -> get_sb79_utilization row = 0.0.
Proof.
  unfold no_tier_far, get_sb79_utilization. intros Hno.
  destruct (Qeq_bool (existing_far row) 0); [reflexivity |].
  destruct (FloorAreaRatio row) as [f |]; [| reflexivity].
  destruct (Qlt_le_dec 0 f); [lra | reflexivity].
Qed.

(** C6: inside a tier zone with a positive upzoned FAR the utilization
    is existing FAR over upzoned FAR, capped at 2.0; where the tier FAR
    is missing or not positive the utilization is 0 whatever the
    existing FAR, the parcel is not flagged as highly utilized, and the
    utilization exclusion keeps it. *)
Theorem utilization_tier_only :
  (forall row f,
      FloorAreaRatio row = Some f -> 0 < f ->
      utilization row == Qmin (existing_far row / f) 2.0)
  /\ (forall row,
      no_tier_far row ->
      utilization row == 0
      /\ is_highly_utilized row = false
      /\ (forall rows, In row rows -> In row (exclude_highly_utilized rows))).
Proof.
  split.
  - intros row f Hf Hpos. unfold utilization.
    rewrite clip_upper_Qmin.
    apply Qmin_Qeq; [| reflexivity].
    apply get_sb79_utilization_in_tier; assumption.
  - intros row Hno.
    assert (Hu : utilization row == 0).
    { unfold utilization. rewrite (get_sb79_utilization_no_tier row Hno).
      reflexivity. }
    assert (Hflag : is_highly_utilized row = false).
    { unfold is_highly_utilized, UTILIZATION_THRESHOLD.
      destruct (Qlt_le_dec 0.8 (utilization row)) as [Hlt | _];
        [| reflexivity].
      rewrite Hu in Hlt. discriminate. }
    split; [exact Hu |]. split; [exact Hflag |].
    intros rows Hin. unfold exclude_highly_utilized.
    apply filter_In. split; [exact Hin |]. rewrite Hflag. reflexivity.
Qed.

Lemma utilization_tier_only_witness :
  utilization sample_parcel == Qmin (0.5 / 3.0) 2.0
  /\ utilization commercial_parcel == 0
  /\ is_highly_utilized commercial_parcel = false
  /\ In commercial_parcel
        (exclude_highly_utilized [sample_parcel; commercial_parcel]).
Proof.
  destruct utilization_tier_only as [Htier Hnone].
  split.
  - apply (Htier sample_parcel 3.0); reflexivity.
  - destruct (Hnone commercial_parcel I) as (Hu & Hflag & Hkeep).
    split; [exact Hu |]. split; [exact Hflag |].
    apply Hkeep. right. left. reflexivity.
Defined.

End Utilization.

Section Feasibility.

Lemma non_historic_cells (row : parcel_row) :
  non_historic row ->
  cell_is (historic_type row) "landmark" = false
  /\ cell_is (historic_type row) "individual" = false
  /\ cell_is (historic_type row) "district" = false
  /\ cell_is (historic_type row) "surveyed" = false.
Proof.
  intros Hnon. unfold cell_is.
  repeat split; apply bool_decide_eq_false; apply Hnon;
    unfold HISTORIC_TYPES; simpl; tauto.
Qed.

Lemma vacant_test (n : nat) : negb (Nat.ltb 0 n) = Nat.eqb n 0.
Proof. destruct n; reflexivity. Qed.

Lemma tier1_test (tz : option string) :
  cell_is tz "T1Z1" || cell_is tz "T1Z2"
  = bool_decide (tz = Some "T1Z1" \/ tz = Some "T1Z2").
Proof.
  unfold cell_is.
  destruct (bool_decide (tz = Some "T1Z1")) eqn:H1;
    destruct (bool_decide (tz = Some "T1Z2")) eqn:H2; simpl; symmetry.
  - apply bool_decide_eq_true. left. now apply bool_decide_eq_true in H1.
  - apply bool_decide_eq_true. left. now apply bool_decide_eq_true in H1.
  - apply bool_decide_eq_true. right. now apply bool_decide_eq_true in H2.
  - apply bool_decide_eq_false. apply bool_decide_eq_false in H1, H2. tauto.
Qed.

Lemma feasibility_follows_table (row : parcel_row) :
  feasibility row = first_match feasibility_table 0.20 row.
Proof.
  unfold feasibility, feasibility_table, first_match.
  cbv zeta. rewrite vacant_test, tier1_test.
  repeat match goal with
         | |- context [if ?c then _ else _] => destruct c
         end; reflexivity.
Qed.

Lemma feasibility_range (row : parcel_row) :
  0 < feasibility row /\ feasibility row <= 1.
Proof.
  unfold feasibility. cbv zeta.
  repeat match goal with
         | |- context [if ?c then _ else _] => destruct c
         end; split; (reflexivity || discriminate).
Qed.

Lemma feasibility_built (row : parcel_row) (n : nat) :
  non_historic row ->
  let built := with_num_buildings (S n) row in
  feasibility built = 0.15 \/ feasibility built = 0.25
  \/ feasibility built = 0.20.
Proof.
  intros Hnon built.
  assert (Hb : non_historic built) by exact Hnon.
  destruct (non_historic_cells built Hb) as (H1 & H2 & H3 & H4).
  unfold feasibility. rewrite H1, H2, H3, H4. cbv zeta.
  change (num_buildings built) with (S n).
  change (negb (Nat.ltb 0 (S n))) with false.
  rewrite !andb_false_r.
  repeat match goal with
         | |- context [if ?c then _ else _] => destruct c
         end; auto.
Qed.

(** C3: the feasibility factor is the factor of the first rule of the
    ordered table that applies, 0.20 when none does; a steep-slope
    parcel that is not historic gets 0.12 when it has no building, and
    with one building it gets the small-lot, tier-1 or default factor,
    never 0.12. *)
Theorem feasibility_first_matching_rule :
  (forall row, feasibility row = first_match feasibility_table 0.20 row)
  /\ (forall row,
      non_historic row -> is_steep_slope row = true ->
      feasibility (with_num_buildings 0 row) = 0.12
      /\ ~ (feasibility (with_num_buildings 1 row) == 0.12)
      /\ (feasibility (with_num_buildings 1 row) = 0.15
          \/ feasibility (with_num_buildings 1 row) = 0.25
          \/ feasibility (with_num_buildings 1 row) = 0.20)).
Proof.
  split; [exact feasibility_follows_table |].
  intros row Hnon Hsteep.
  split; [| split].
  - assert (Hb : non_historic (with_num_buildings 0 row)) by exact Hnon.
    destruct (non_historic_cells _ Hb) as (H1 & H2 & H3 & H4).
    unfold feasibility. rewrite H1, H2, H3, H4. cbv zeta.
    simpl. rewrite Hsteep. reflexivity.
  - destruct (feasibility_built row 0 Hnon) as [E | [E | E]];
      cbv zeta in E; rewrite E; discriminate.
  - exact (feasibility_built row 0 Hnon).
Qed.

Lemma feasibility_first_matching_rule_witness :
  feasibility (with_num_buildings 0 (steep_parcel 7)) = 0.12
  /\ ~ (feasibility (with_num_buildings 1 (steep_parcel 7)) == 0.12)
  /\ (feasibility (with_num_buildings 1 (steep_parcel 7)) = 0.15
      \/ feasibility (with_num_buildings 1 (steep_parcel 7)) = 0.25
      \/ feasibility (with_num_buildings 1 (steep_parcel 7)) = 0.20).
Proof.
  apply (proj2 feasibility_first_matching_rule (steep_parcel 7)).
  - intros name _. discriminate.
  - reflexivity.
Defined.

(** C8: every return of the scorer, the default included, is a factor
    greater than 0 and at most 1, so every row of the emitted table
    carries a factor in (0, 1]. *)
Theorem feasibility_factor_in_unit_interval :
  (forall row, 0 < feasibility row /\ feasibility row <= 1)
  /\ (forall rows,
      length (feasibility_factor_column rows) = length rows
      /\ Forall (fun x => 0 < x /\ x <= 1) (feasibility_factor_column rows))
  /\ 0 < FEASIBILITY_DEFAULT /\ FEASIBILITY_DEFAULT <= 1.
Proof.
  split; [exact feasibility_range |].
  split.
  - intros rows. unfold feasibility_factor_column.
    split; [apply length_map |].
    apply Forall_map. apply Forall_forall. intros row _.
    apply feasibility_range.
  - split; [reflexivity | discriminate].
Qed.

End Feasibility.

Section Historic.

Lemma nonempty_true (s : gset string) : nonempty s = true <-> s ≠ ∅.
Proof. unfold nonempty. apply bool_decide_eq_true. Qed.

Lemma size_test (s : gset string) : s ≠ ∅ -> Nat.eqb (size s) 0 = false.
Proof.
  intros Hne. apply Nat.eqb_neq. intros Hsize.
  apply Hne. apply leibniz_equiv. apply size_empty_inv. exact Hsize.
Qed.

Lemma district_test (layers : gset string) :
  nonempty (layers ∩ DISTRICT_HISTORIC_LAYERS)
  = intersected layers "national_register"
    || intersected layers "california_register"
    || intersected layers "article10_districts"
    || intersected layers "article11_districts".
Proof.
  unfold nonempty, intersected.
  apply eq_true_iff_eq.
  rewrite !orb_true_iff, !bool_decide_eq_true.
  split.
  - intros Hne. apply set_choose_L in Hne as [x Hx].
    apply elem_of_intersection in Hx as [Hl Hd].
    unfold DISTRICT_HISTORIC_LAYERS in Hd.
    rewrite !elem_of_union, !elem_of_singleton in Hd.
    destruct Hd as [[[-> | ->] | ->] | ->]; tauto.
  - intros Hin Hempty.
    assert (Hnone : forall x, x ∈ layers -> x ∉ DISTRICT_HISTORIC_LAYERS).
    { intros x Hx Hd.
      apply (not_elem_of_empty (C := gset string) x).
      rewrite <- Hempty. apply elem_of_intersection. split; assumption. }
    unfold DISTRICT_HISTORIC_LAYERS in Hnone.
    destruct Hin as [[[H | H] | H] | H]; apply (Hnone _ H);
      rewrite !elem_of_union, !elem_of_singleton; tauto.
Qed.

Lemma surveyed_test (layers : gset string) :
  nonempty (layers ∩ SURVEYED_HISTORIC_LAYERS)
  = intersected layers "historic_survey".
Proof.
  unfold nonempty, intersected, SURVEYED_HISTORIC_LAYERS.
  apply eq_true_iff_eq.
  rewrite !bool_decide_eq_true.
  split.
  - intros Hne. apply set_choose_L in Hne as [x Hx].
    apply elem_of_intersection in Hx as [Hl Hd].
    apply elem_of_singleton in Hd. subst x. exact Hl.
  - intros Hin Hempty.
    apply (not_elem_of_empty (C := gset string) "historic_survey").
    rewrite <- Hempty. apply elem_of_intersection.
    split; [exact Hin | apply elem_of_singleton; reflexivity].
Qed.

Lemma classify_follows_ladder (layers : gset string) :
  classify_historic_type layers = historic_ladder layers.
Proof.
  unfold classify_historic_type, historic_ladder.
  rewrite district_test, surveyed_test.
  destruct (decide (layers = ∅)) as [-> | Hne].
  - reflexivity.
  - rewrite (size_test layers Hne).
    apply nonempty_true in Hne. rewrite Hne. reflexivity.
Qed.

Lemma intersected_true (layers : gset string) (name : string) :
  name ∈ layers -> intersected layers name = true.
Proof. intros H. apply bool_decide_eq_true. exact H. Qed.

Lemma intersected_false (layers : gset string) (name : string) :
  name ∉ layers -> intersected layers name = false.
Proof. intros H. apply bool_decide_eq_false. exact H. Qed.

Lemma district_layer_names (name : string) :
  name ∈ DISTRICT_HISTORIC_LAYERS <->
  name = "national_register" \/ name = "california_register"
  \/ name = "article10_districts" \/ name = "article11_districts".
Proof.
  unfold DISTRICT_HISTORIC_LAYERS.
  rewrite !elem_of_union, !elem_of_singleton. tauto.
Qed.

Lemma on_district_layer (layers : gset string) (name : string) :
  name ∈ DISTRICT_HISTORIC_LAYERS -> name ∈ layers ->
  intersected layers "national_register"
  || intersected layers "california_register"
  || intersected layers "article10_districts"
  || intersected layers "article11_districts" = true.
Proof.
  intros Hd Hl. apply district_layer_names in Hd.
  destruct Hd as [-> | [-> | [-> | ->]]];
    rewrite (intersected_true _ _ Hl), ?orb_true_r; reflexivity.
Qed.

Lemma off_district_layers (layers : gset string) :
  (forall name, name ∈ DISTRICT_HISTORIC_LAYERS -> name ∉ layers) ->
  intersected layers "national_register"
  || intersected layers "california_register"
  || intersected layers "article10_districts"
  || intersected layers "article11_districts" = false.
Proof.
  intros Hoff.
  rewrite !intersected_false; [reflexivity | | | |];
    apply Hoff; apply district_layer_names; tauto.
Qed.

(** C4: the historic type is the first rung of the ladder landmark,
    individual, district, surveyed whose layer is among the layers the
    parcel intersects, and nothing when no rung applies; a parcel on
    both the landmarks layer and the survey layer is a landmark. *)
Theorem classify_historic_type_priority :
  (forall layers, classify_historic_type layers = historic_ladder layers)
  /\ (forall layers,
      "landmarks" ∈ layers -> classify_historic_type layers = Some "landmark")
  /\ (forall layers,
      "landmarks" ∉ layers -> "historic_resources" ∈ layers ->
      classify_historic_type layers = Some "individual")
  /\ (forall layers name,
      "landmarks" ∉ layers -> "historic_resources" ∉ layers ->
      name ∈ DISTRICT_HISTORIC_LAYERS -> name ∈ layers ->
      classify_historic_type layers = Some "district")
  /\ (forall layers,
      "landmarks" ∉ layers -> "historic_resources" ∉ layers ->
      (forall name, name ∈ DISTRICT_HISTORIC_LAYERS -> name ∉ layers) ->
      "historic_survey" ∈ layers ->
      classify_historic_type layers = Some "surveyed")
  /\ (forall layers,
      "landmarks" ∉ layers -> "historic_resources" ∉ layers ->
      (forall name, name ∈ DISTRICT_HISTORIC_LAYERS -> name ∉ layers) ->
      "historic_survey" ∉ layers ->
      classify_historic_type layers = None)
  /\ classify_historic_type {[ "landmarks"; "historic_survey" ]}
     = Some "landmark".
Proof.
  split; [exact classify_follows_ladder |].
  split; [| split; [| split; [| split; [| split]]]].
  - intros layers Hl. rewrite classify_follows_ladder.
    unfold historic_ladder. rewrite (intersected_true _ _ Hl). reflexivity.
  - intros layers Hl Hr. rewrite classify_follows_ladder.
    unfold historic_ladder.
    rewrite (intersected_false _ _ Hl), (intersected_true _ _ Hr).
    reflexivity.
  - intros layers name Hl Hr Hd Hin. rewrite classify_follows_ladder.
    unfold historic_ladder.
    rewrite (intersected_false _ _ Hl), (intersected_false _ _ Hr).
    rewrite (on_district_layer layers name Hd Hin). reflexivity.
  - intros layers Hl Hr Hd Hs. rewrite classify_follows_ladder.
    unfold historic_ladder.
    rewrite (intersected_false _ _ Hl), (intersected_false _ _ Hr).
    rewrite (off_district_layers layers Hd), (intersected_true _ _ Hs).
    reflexivity.
  - intros layers Hl Hr Hd Hs. rewrite classify_follows_ladder.
    unfold historic_ladder.
    rewrite (intersected_false _ _ Hl), (intersected_false _ _ Hr).
    rewrite (off_district_layers layers Hd), (intersected_false _ _ Hs).
    reflexivity.
  - vm_compute. reflexivity.
Qed.

Lemma classify_historic_type_priority_witness :
  classify_historic_type {[ "landmarks"; "national_register" ]}
  = Some "landmark"
  /\ classify_historic_type {[ "historic_resources"; "historic_survey" ]}
     = Some "individual"
  /\ classify_historic_type {[ "article10_districts"; "historic_survey" ]}
     = Some "district"
  /\ classify_historic_type {[ "historic_survey" ]} = Some "surveyed"
  /\ classify_historic_type {[ "slope_25" ]} = None.
Proof.
  destruct classify_historic_type_priority
    as (_ & Hlandmark & Hindividual & Hdistrict & Hsurveyed & Hnone & _).
  assert (Hoff : forall layers : gset string,
             "national_register" ∉ layers ->
             "california_register" ∉ layers ->
             "article10_districts" ∉ layers ->
             "article11_districts" ∉ layers ->
             forall name, name ∈ DISTRICT_HISTORIC_LAYERS -> name ∉ layers).
  { intros layers H1 H2 H3 H4 name Hd.
    apply district_layer_names in Hd.
    destruct Hd as [-> | [-> | [-> | ->]]]; assumption. }
  split; [apply Hlandmark; compute_done |].
  split; [apply Hindividual; compute_done |].
  split; [apply (Hdistrict _ "article10_districts"); compute_done |].
  split; [apply Hsurveyed; [compute_done | compute_done | | compute_done];
          apply Hoff; compute_done |].
  apply Hnone; [compute_done | compute_done | | compute_done].
  apply Hoff; compute_done.
Defined.

End Historic.

Module TierJoinFacts.
Import TierJoin.

Lemma key_compare_Lt (a b : option Q) :
  key_compare compare_numbers a b = Lt <-> strictly_greater a b.
Proof.
  destruct a as [x |], b as [y |]; simpl.
  - symmetry. apply Qlt_alt.
  - tauto.
  - split; [discriminate | tauto].
  - split; [discriminate | tauto].
Qed.

Lemma key_compare_Eq (a b : option Q) :
  key_compare compare_numbers a b = Eq <-> tie a b.
Proof.
  destruct a as [x |], b as [y |]; simpl.
  - rewrite <- Qeq_alt. split; intros H; symmetry; exact H.
  - split; [discriminate | tauto].
  - split; [discriminate | tauto].
  - tauto.
Qed.

Lemma key_compare_Gt (a b : option Q) :
  key_compare compare_numbers a b = Gt <-> strictly_greater b a.
Proof.
  destruct a as [x |], b as [y |]; simpl.
  - symmetry. apply Qgt_alt.
  - split; [discriminate | tauto].
  - tauto.
  - split; [discriminate | tauto].
Qed.

Lemma not_after_permissive (w c : candidate Q Q) :
  not_after compare_numbers compare_numbers w c = true
  <-> at_least_as_permissive w c.
Proof.
  unfold not_after, row_compare, at_least_as_permissive.
  rewrite <- !key_compare_Lt, <- !key_compare_Eq.
  destruct (key_compare compare_numbers (MaxDensity w) (MaxDensity c));
    destruct (key_compare compare_numbers (FloorAreaRatio w)
                (FloorAreaRatio c));
    intuition congruence.
Qed.

Lemma permissive_refl (r : candidate Q Q) : at_least_as_permissive r r.
Proof.
  unfold at_least_as_permissive. right.
  destruct (MaxDensity r), (FloorAreaRatio r); simpl;
    split; try tauto; try reflexivity; right; try tauto; reflexivity.
Qed.

Lemma permissive_total (a b : candidate Q Q) :
  at_least_as_permissive a b \/ at_least_as_permissive b a.
Proof.
  unfold at_least_as_permissive.
  destruct (MaxDensity a) as [da |], (MaxDensity b) as [db |],
    (FloorAreaRatio a) as [fa |], (FloorAreaRatio b) as [fb |]; simpl;
    try tauto;
    try (destruct (Q_dec da db) as [[H | H] | H]);
    try (destruct (Q_dec fa fb) as [[H' | H'] | H']);
    intuition (auto using Qeq_sym).
Qed.

Lemma permissive_trans (a b c : candidate Q Q) :
  at_least_as_permissive a b -> at_least_as_permissive b c ->
  at_least_as_permissive a c.
Proof.
  unfold at_least_as_permissive.
  destruct (MaxDensity a) as [da |], (MaxDensity b) as [db |],
    (MaxDensity c) as [dc |]; simpl;
    destruct (FloorAreaRatio a) as [fa |], (FloorAreaRatio b) as [fb |],
    (FloorAreaRatio c) as [fc |]; simpl;
    intros [H1 | [H1 [H1' | H1']]] [H2 | [H2 [H2' | H2']]];
    try tauto;
    try (left; lra);
    try (right; split; [lra | try tauto; try (left; lra); right; lra]);
    try (right; split; [tauto | try tauto; try (left; lra); right; lra]).
Qed.

(** *** The sort *)

Lemma insert_row_In (r x : candidate Q Q) (l : list (candidate Q Q)) :
  In x (insert_row compare_numbers compare_numbers r l) <-> x = r \/ In x l.
Proof.
  induction l as [| y l IH]; simpl.
  - intuition.
  - destruct (not_after compare_numbers compare_numbers r y); simpl;
      [intuition |].
    rewrite IH. intuition.
Qed.

Lemma sort_values_In (x : candidate Q Q) (rows : list (candidate Q Q)) :
  In x (sort_values compare_numbers compare_numbers rows) <-> In x rows.
Proof.
  induction rows as [| r rows IH]; simpl; [tauto |].
  rewrite insert_row_In, IH. intuition.
Qed.

Lemma insert_row_ranked (r : candidate Q Q) (l : list (candidate Q Q)) :
  ranked l -> ranked (insert_row compare_numbers compare_numbers r l).
Proof.
  unfold ranked. induction 1 as [| y l Hl IH Hy]; simpl.
  - repeat constructor.
  - destruct (not_after compare_numbers compare_numbers r y) eqn:Hry.
    + apply not_after_permissive in Hry.
      constructor; [constructor; assumption |].
      constructor; [exact Hry |].
      eapply List.Forall_impl; [| exact Hy].
      intros c Hc. exact (permissive_trans _ _ _ Hry Hc).
    + assert (Hyr : at_least_as_permissive y r).
      { destruct (permissive_total r y) as [H | H]; [| exact H].
        apply not_after_permissive in H. congruence. }
      constructor; [exact IH |].
      apply List.Forall_forall. intros c Hc.
      apply insert_row_In in Hc. destruct Hc as [-> | Hc]; [exact Hyr |].
      rewrite List.Forall_forall in Hy. apply Hy. exact Hc.
Qed.

Lemma sort_values_ranked (rows : list (candidate Q Q)) :
  ranked (sort_values compare_numbers compare_numbers rows).
Proof.
  induction rows as [| r rows IH]; simpl.
  - constructor.
  - apply insert_row_ranked. exact IH.
Qed.

(** *** The deduplication *)

Lemma rows_of_drop_duplicates_from (pid : nat) (rows : list (candidate Q Q)) :
  forall seen : gset nat,
    rows_of pid (drop_duplicates_from seen rows)
    = if bool_decide (pid ∈ seen) then [] else first_of pid rows.
Proof.
  unfold rows_of, first_of.
  induction rows as [| r rows IH]; intros seen; simpl.
  - destruct (bool_decide (pid ∈ seen)); reflexivity.
  - unfold has_id at 1.
    destruct (bool_decide_reflect (parcel_id r ∈ seen)) as [Hseen | Hnew].
    + rewrite IH.
      destruct (Nat.eqb_spec (parcel_id r) pid) as [<- | Hne];
        [| reflexivity].
      rewrite bool_decide_eq_true_2 by exact Hseen. reflexivity.
    + simpl. rewrite IH.
      destruct (Nat.eqb_spec (parcel_id r) pid) as [<- | Hne].
      * rewrite bool_decide_eq_true_2
          by (apply elem_of_union_l, elem_of_singleton; reflexivity).
        rewrite bool_decide_eq_false_2 by exact Hnew. reflexivity.
      * destruct (bool_decide_reflect (pid ∈ seen)) as [Hp | Hp].
        -- rewrite bool_decide_eq_true_2
             by (apply elem_of_union_r; exact Hp).
           reflexivity.
        -- rewrite bool_decide_eq_false_2; [reflexivity |].
           rewrite elem_of_union, elem_of_singleton. intuition.
Qed.

Lemma rows_of_drop_duplicates (pid : nat) (rows : list (candidate Q Q)) :
  rows_of pid (drop_duplicates rows) = first_of pid rows.
Proof.
  unfold drop_duplicates. rewrite rows_of_drop_duplicates_from.
  rewrite bool_decide_eq_false_2; [reflexivity | apply not_elem_of_empty].
Qed.

Lemma find_ranked_best (pid : nat) (l : list (candidate Q Q))
    (w : candidate Q Q) :
  ranked l -> List.find (has_id pid) l = Some w ->
  In w l /\ parcel_id w = pid
  /\ forall c, In c l -> parcel_id c = pid -> at_least_as_permissive w c.
Proof.
  unfold ranked. induction 1 as [| y l Hl IH Hy]; simpl; [discriminate |].
  unfold has_id at 1.
  destruct (Nat.eqb_spec (parcel_id y) pid) as [Hid | Hne].
  - intros [= <-]. split; [left; reflexivity |]. split; [exact Hid |].
    intros c [<- | Hc] _; [apply permissive_refl |].
    rewrite List.Forall_forall in Hy. apply Hy. exact Hc.
  - intros Hfind. destruct (IH Hfind) as (Hin & Hid & Hbest).
    split; [right; exact Hin |]. split; [exact Hid |].
    intros c [<- | Hc] Hc'; [contradiction |].
    apply Hbest; assumption.
Qed.

Lemma find_present (pid : nat) (l : list (candidate Q Q)) :
  In pid (List.map parcel_id l) ->
  exists w, List.find (has_id pid) l = Some w.
Proof.
  induction l as [| y l IH]; simpl; [tauto |].
  unfold has_id at 1.
  destruct (Nat.eqb_spec (parcel_id y) pid) as [Hid | Hne].
  - intros _. exists y. reflexivity.
  - intros [Hy | Hin]; [contradiction | apply IH; exact Hin].
Qed.

(** On numeric columns, after the sort and the deduplication, every
    parcel id of the join keeps exactly one row; that row is one of the
    parcel's candidates, and none of them has a greater density, or the
    same density and a greater FAR, missing values counting as least. *)
Theorem most_permissive_tier_wins (rows : list (candidate Q Q)) (pid : nat) :
  In pid (List.map parcel_id rows) ->
  exists w,
    rows_of pid (keep_most_permissive compare_numbers compare_numbers rows)
    = [w]
    /\ In w rows
    /\ parcel_id w = pid
    /\ forall c, In c rows -> parcel_id c = pid ->
                 at_least_as_permissive w c.
Proof.
  intros Hpid. unfold keep_most_permissive.
  rewrite rows_of_drop_duplicates. unfold first_of.
  assert (Hsorted : In pid (List.map parcel_id
                              (sort_values compare_numbers compare_numbers
                                 rows))).
  { apply in_map_iff in Hpid as (r & Hr & Hin).
    apply in_map_iff. exists r. split; [exact Hr |].
    apply sort_values_In. exact Hin. }
  destruct (find_present _ _ Hsorted) as [w Hw]. rewrite Hw.
  destruct (find_ranked_best pid _ w (sort_values_ranked rows) Hw)
    as (Hin & Hid & Hbest).
  exists w. split; [reflexivity |].
  split; [apply sort_values_In; exact Hin |].
  split; [exact Hid |].
  intros c Hc Hcid. apply Hbest; [| exact Hcid].
  apply sort_values_In. exact Hc.
Qed.

Lemma most_permissive_tier_wins_witness :
  exists w,
    rows_of 7 (keep_most_permissive compare_numbers compare_numbers
                 sample_join) = [w]
    /\ In w sample_join
    /\ parcel_id w = 7%nat
    /\ forall c, In c sample_join -> parcel_id c = 7%nat ->
                 at_least_as_permissive w c.
Proof.
  apply (most_permissive_tier_wins sample_join 7).
  simpl. tauto.
Defined.

Example sample_join_kept :
  keep_most_permissive compare_numbers compare_numbers sample_join
  = [ {| parcel_id := 7; TZ := Some "T1Z1";
         MaxDensity := Some 100; FloorAreaRatio := Some 3.5 |};
      {| parcel_id := 8; TZ := None;
         MaxDensity := None; FloorAreaRatio := None |} ].
Proof. vm_compute. reflexivity. Qed.

(** C5: the sort runs on the columns as delivered.  When the service
    delivers the two attributes as text, [sort_values] orders them as
    strings, where "80" comes after "120", and the deduplication keeps
    the tier of 80 units/acre; delivered as numbers, the same join keeps
    the tier of 120 units/acre, as the rule "most permissive wins"
    asks. *)
Theorem text_columns_keep_less_permissive_tier :
  compare_text "80" "120" = Gt
  /\ keep_most_permissive compare_text compare_text two_tiers_as_text
     = [ {| parcel_id := 7; TZ := Some "T2Z1";
            MaxDensity := Some "80"; FloorAreaRatio := Some "3.0" |} ]
  /\ 80 < 120
  /\ keep_most_permissive compare_numbers compare_numbers two_tiers_as_numbers
     = [ {| parcel_id := 7; TZ := Some "T1Z1";
            MaxDensity := Some 120; FloorAreaRatio := Some 3.5 |} ].
Proof.
  split; [vm_compute; reflexivity |].
  split; [vm_compute; reflexivity |].
  split; [reflexivity |].
  vm_compute. reflexivity.
Qed.

End TierJoinFacts.

Module FootprintFacts.
Import Footprints.

Lemma fillna_to_numeric (c : raw_cell) :
  Py.fillna 6.0 (to_numeric c) = meters_or_default c.
Proof. destruct c; reflexivity. Qed.

Lemma height_m_meters (n : nat) (meters : list raw_cell)
    (centimeters : option (list raw_cell)) :
  height_m {| n_rows := n; hgt_median_m := Some meters;
              hgt_mediancm := centimeters |}
  = List.map meters_or_default meters.
Proof.
  unfold height_m. simpl. rewrite List.map_map.
  apply List.map_ext. exact fillna_to_numeric.
Qed.

(** C10: the height source is chosen for the whole column.  When the
    layer has the meters column, the heights are read from it alone,
    whatever the centimeters column holds, and a row whose meters value
    is missing or not a number gets 6.0 m, not its centimeters over
    100. *)
Theorem height_fallback_is_per_column :
  (forall n meters centimeters,
      height_m {| n_rows := n; hgt_median_m := Some meters;
                  hgt_mediancm := centimeters |}
      = List.map meters_or_default meters)
  /\ (forall n meters centimeters centimeters',
      height_m {| n_rows := n; hgt_median_m := Some meters;
                  hgt_mediancm := centimeters |}
      = height_m {| n_rows := n; hgt_median_m := Some meters;
                    hgt_mediancm := centimeters' |})
  /\ (forall n meters centimeters i c,
      nth_error meters i = Some c -> to_numeric c = None ->
      nth_error (height_m {| n_rows := n; hgt_median_m := Some meters;
                             hgt_mediancm := centimeters |}) i
      = Some 6.0)
  /\ height_m {| n_rows := 2; hgt_median_m := Some sample_meters;
                 hgt_mediancm := Some sample_centimeters |}
     = [6.0; 12]
  /\ height_m {| n_rows := 2; hgt_median_m := None;
                 hgt_mediancm := Some sample_centimeters |}
     = [950 / 100; 1200 / 100].
Proof.
  split; [exact height_m_meters |].
  split; [| split; [| split]].
  - intros n meters centimeters centimeters'.
    rewrite !height_m_meters. reflexivity.
  - intros n meters centimeters i c Hc Hnan.
    rewrite height_m_meters.
    rewrite (List.map_nth_error _ _ _ Hc).
    destruct c; [discriminate Hnan | reflexivity | reflexivity].
  - reflexivity.
  - reflexivity.
Qed.

Lemma height_fallback_is_per_column_witness :
  nth_error (height_m {| n_rows := 2; hgt_median_m := Some sample_meters;
                         hgt_mediancm := Some sample_centimeters |}) 0
  = Some 6.0.
Proof.
  destruct height_fallback_is_per_column as (_ & _ & Hrow & _).
  apply (Hrow 2%nat sample_meters (Some sample_centimeters) 0%nat Missing);
    reflexivity.
Defined.

End FootprintFacts.

Section WorkedExample.

(** The end-to-end example of the design document, on [sample_parcel]:
    4.13 baseline units, 7.34 upzoned units, 3.21 added, utilization
    0.167, default feasibility, 0.64 realistic units. *)
Example sample_parcel_end_to_end :
  baseline_units sample_parcel == 45 * 4000 / 43560
  /\ sb79_units sample_parcel == 80 * 4000 / 43560
  /\ added_units_theoretical sample_parcel == 35 * 4000 / 43560
  /\ utilization sample_parcel == 0.5 / 3.0
  /\ is_highly_utilized sample_parcel = false
  /\ feasibility sample_parcel = 0.20
  /\ added_units_realistic sample_parcel == 7 * 4000 / 43560.
Proof. repeat split; vm_compute; reflexivity. Qed.

End WorkedExample.

(** ** Further properties *)

Section CapacityFacts.

Lemma py_min_le_l (a b : Q) : Py.min a b <= a.
Proof. unfold Py.min. destruct (Qlt_le_dec b a); lra. Qed.

Lemma py_min_le_r (a b : Q) : Py.min a b <= b.
Proof. unfold Py.min. destruct (Qlt_le_dec b a); lra. Qed.

Lemma py_min_glb (a b c : Q) : c <= a -> c <= b -> c <= Py.min a b.
Proof. unfold Py.min. destruct (Qlt_le_dec b a); lra. Qed.

Lemma area_per_acre_nonneg (area : Q) : 0 <= area -> 0 <= area / ACRE_SF.
Proof.
  intros Ha. apply Qle_shift_div_l; [reflexivity | lra].
Qed.

Lemma density_cap_monotone (area d d' : Q) :
  0 <= area -> d <= d' -> d * (area / ACRE_SF) <= d' * (area / ACRE_SF).
Proof.
  intros Ha Hd. apply Qmult_le_compat_r; [exact Hd |].
  apply area_per_acre_nonneg. exact Ha.
Qed.

Lemma far_cap_monotone (area f f' : Q) :
  0 <= area -> f <= f' ->
  area * f * EFFICIENCY / AVG_UNIT_SF <= area * f' * EFFICIENCY / AVG_UNIT_SF.
Proof.
  intros Ha Hf. unfold Qdiv.
  apply Qmult_le_compat_r; [| discriminate].
  apply Qmult_le_compat_r; [| discriminate].
  rewrite (Qmult_comm area f), (Qmult_comm area f').
  apply Qmult_le_compat_r; assumption.
Qed.

Lemma units_allowed_nonneg (area d f : Q) :
  0 <= area -> 0 <= d -> 0 <= f -> 0 <= units_allowed area d f.
Proof.
  intros Ha Hd Hf. unfold units_allowed. apply py_min_glb.
  - apply Qmult_le_0_compat; [exact Hd | apply area_per_acre_nonneg; exact Ha].
  - apply Qle_shift_div_l; [reflexivity |]. rewrite Qmult_0_l.
    repeat apply Qmult_le_0_compat; try assumption. discriminate.
Qed.

Lemma units_allowed_le (area d d' f f' : Q) :
  0 <= area -> d <= d' -> f <= f' ->
  units_allowed area d f <= units_allowed area d' f'.
Proof.
  intros Ha Hd Hf. unfold units_allowed.
  apply py_min_glb.
  - eapply Qle_trans; [apply py_min_le_l |].
    apply density_cap_monotone; assumption.
  - eapply Qle_trans; [apply py_min_le_r |].
    apply far_cap_monotone; assumption.
Qed.

(** X1: on a lot of non-negative area, a higher density or a higher FAR
    never allows fewer units, and the count is never negative when
    density and FAR are not. *)
Theorem units_allowed_monotone (area d d' f f' : Q) :
  0 <= area -> d <= d' -> f <= f' ->
  units_allowed area d f <= units_allowed area d' f'
  /\ (0 <= d -> 0 <= f -> 0 <= units_allowed area d f).
Proof.
  intros Ha Hd Hf. split.
  - apply units_allowed_le; assumption.
  - intros Hd0 Hf0. apply units_allowed_nonneg; assumption.
Qed.

Lemma units_allowed_monotone_witness :
  units_allowed 5000 30 1.5 <= units_allowed 5000 45 1.8
  /\ 0 <= units_allowed 5000 30 1.5.
Proof.
  destruct (units_allowed_monotone 5000 30 45 1.5 1.8) as [Hle Hpos];
    try discriminate.
  split; [exact Hle | apply Hpos; discriminate].
Defined.

Lemma py_min_Qeq (a a' b b' : Q) :
  a == a' -> b == b' -> Py.min a b == Py.min a' b'.
Proof.
  intros Ha Hb. rewrite !py_min_Qmin. apply Qmin_Qeq; assumption.
Qed.

Lemma py_min_scale (k a b : Q) :
  0 <= k -> Py.min (k * a) (k * b) == k * Py.min a b.
Proof.
  intros Hk. unfold Py.min.
  destruct (Qlt_le_dec (k * b) (k * a)) as [H | H];
    destruct (Qlt_le_dec b a) as [H' | H']; try reflexivity.
  - assert (k * a <= k * b).
    { rewrite (Qmult_comm k b), (Qmult_comm k a).
      apply Qmult_le_compat_r; [exact H' | exact Hk]. }
    lra.
  - assert (k * b <= k * a).
    { rewrite (Qmult_comm k b), (Qmult_comm k a).
      apply Qmult_le_compat_r; [lra | exact Hk]. }
    lra.
Qed.

(** X2: the count is proportional to the lot area: a lot [k] times as
    large allows [k] times the units (none at area 0). *)
Theorem units_allowed_scales_with_area (k area d f : Q) :
  0 <= k ->
  units_allowed (k * area) d f == k * units_allowed area d f.
Proof.
  intros Hk. unfold units_allowed.
  rewrite <- py_min_scale by exact Hk.
  apply py_min_Qeq.
  - unfold ACRE_SF. field.
  - unfold AVG_UNIT_SF. field.
Qed.

Lemma units_allowed_scales_with_area_witness :
  units_allowed (2 * 2500) 30 1.5 == 2 * units_allowed 2500 30 1.5.
Proof. apply (units_allowed_scales_with_area 2 2500 30 1.5). discriminate. Defined.

(** X3: which cap binds does not depend on the lot: on any lot of
    positive area the density cap is the result exactly when the density
    per square foot is at most the FAR times 0.85 / 800. *)
Theorem density_binds_iff (area d f : Q) :
  0 < area ->
  (units_allowed area d f == d * (area / ACRE_SF)
   <-> d / ACRE_SF <= f * EFFICIENCY / AVG_UNIT_SF).
Proof.
  intros Ha. unfold units_allowed, Py.min.
  assert (Hcmp : forall x y, x * area <= y * area <-> x <= y).
  { intros x y. split; intros H.
    - apply Qmult_le_r in H; assumption.
    - apply Qmult_le_compat_r; [exact H | lra]. }
  assert (E1 : d * (area / ACRE_SF) == d / ACRE_SF * area)
    by (unfold ACRE_SF; field).
  assert (E2 : area * f * EFFICIENCY / AVG_UNIT_SF
               == f * EFFICIENCY / AVG_UNIT_SF * area)
    by (unfold AVG_UNIT_SF; field).
  rewrite <- Hcmp, <- E1, <- E2.
  destruct (Qlt_le_dec _ _) as [H | H]; split; intros H'; lra.
Qed.

Lemma density_binds_iff_witness :
  units_allowed 5000 30 1.5 == 30 * (5000 / ACRE_SF)
  <-> 30 / ACRE_SF <= 1.5 * EFFICIENCY / AVG_UNIT_SF.
Proof. apply (density_binds_iff 5000 30 1.5). reflexivity. Defined.

Lemma baseline_units_nonneg (row : parcel_row) :
  0 <= parcel_area_sf row -> 0 <= baseline_units row.
Proof.
  intros Ha. unfold baseline_units.
  destruct (zone_lookup (zoning row)) as [z |] eqn:Hz.
  - rewrite (baseline_units_in_table row z Hz). simpl.
    destruct (zone_lookup_pos _ _ Hz) as [Hd Hf].
    apply units_allowed_nonneg; [exact Ha | lra |].
    pose proof (height_based_far_pos (gen_hght row)) as Hh.
    destruct (Q.min_spec (far z) (height_based_far (gen_hght row)))
      as [[_ E] | [_ E]]; rewrite E; lra.
  - rewrite (baseline_units_not_in_table row Hz). simpl.
    pose proof (height_based_far_pos (gen_hght row)) as Hh.
    apply units_allowed_nonneg; [exact Ha | discriminate | lra].
Qed.

(** X4: in a zone of the table the height district can only restrict:
    the baseline is at most what the zone's own density and FAR allow. *)
Theorem height_never_relaxes_zoning (row : parcel_row) (code : string)
    (z : zoning_entry) :
  zoning row = Some code -> BASELINE_ZONING !! code = Some z ->
  0 <= parcel_area_sf row ->
  baseline_units row
  <= units_allowed (parcel_area_sf row) (du_ac z) (far z).
Proof.
  intros Hcode Hz Ha. unfold baseline_units.
  rewrite (baseline_units_in_table row z); [| rewrite Hcode; exact Hz].
  simpl. apply units_allowed_le; [exact Ha | lra |].
  apply Q.le_min_l.
Qed.

Lemma height_never_relaxes_zoning_witness :
  baseline_units Samples.low_height_parcel <= units_allowed 3000 30 1.5.
Proof.
  apply (height_never_relaxes_zoning Samples.low_height_parcel "RH-1"
           {| du_ac := 30; far := 1.5 |}).
  - reflexivity.
  - reflexivity.
  - discriminate.
Defined.

Lemma sb79_units_missing (row : parcel_row) :
  MaxDensity row = None \/ FloorAreaRatio row = None ->
  sb79_units row = 0.0.
Proof.
  unfold sb79_units. intros [H | H]; rewrite H; [reflexivity |].
  destruct (MaxDensity row); reflexivity.
Qed.

Lemma feasibility_values (row : parcel_row) :
  In (feasibility row) [0.02; 0.10; 0.12; 0.15; 0.18; 0.20; 0.25].
Proof.
  unfold feasibility. cbv zeta.
  repeat match goal with
         | |- context [if ?c then _ else _] => destruct c
         end; simpl; tauto.
Qed.

Lemma feasibility_at_most_quarter (row : parcel_row) :
  feasibility row <= 0.25.
Proof.
  pose proof (feasibility_values row) as H. simpl in H.
  repeat (destruct H as [<- | H]; [discriminate |]). contradiction.
Qed.

(** X5: a parcel without tier density or tier FAR adds no capacity,
    theoretical or realistic, whatever its baseline. *)
Theorem no_tier_no_added_units (row : parcel_row) :
  MaxDensity row = None \/ FloorAreaRatio row = None ->
  0 <= parcel_area_sf row ->
  added_units_theoretical row == 0 /\ added_units_realistic row == 0.
Proof.
  intros Hmiss Ha.
  assert (Hadd : added_units_theoretical row == 0).
  { unfold added_units_theoretical, added_units, Py.clip_lower.
    rewrite (sb79_units_missing row Hmiss).
    pose proof (baseline_units_nonneg row Ha) as Hb.
    destruct (Qlt_le_dec (0.0 - baseline_units row) 0); [reflexivity |].
    lra. }
  split; [exact Hadd |].
  unfold added_units_realistic. rewrite Hadd. ring.
Qed.

Lemma no_tier_no_added_units_witness :
  added_units_theoretical untiered_parcel == 0
  /\ added_units_realistic untiered_parcel == 0.
Proof.
  apply (no_tier_no_added_units untiered_parcel).
  - left. reflexivity.
  - discriminate.
Defined.

(** X6: capacity is added exactly where the upzoned count is above the
    baseline count. *)
Theorem added_units_positive_iff (row : parcel_row) :
  0 < added_units_theoretical row <-> baseline_units row < sb79_units row.
Proof.
  unfold added_units_theoretical, added_units, Py.clip_lower.
  destruct (Qlt_le_dec (sb79_units row - baseline_units row) 0);
    split; intros H; lra.
Qed.

Lemma added_units_positive_iff_witness :
  0 < added_units_theoretical sample_parcel
  <-> baseline_units sample_parcel < sb79_units sample_parcel.
Proof. apply (added_units_positive_iff sample_parcel). Defined.

(** X7: the realistic count is between 0 and a quarter of the
    theoretical one, 0.25 being the largest factor the scorer returns. *)
Theorem added_units_realistic_bounds (row : parcel_row) :
  0 <= added_units_realistic row
  /\ added_units_realistic row <= 0.25 * added_units_theoretical row
  /\ added_units_realistic row <= added_units_theoretical row.
Proof.
  unfold added_units_realistic.
  assert (Ht : 0 <= added_units_theoretical row).
  { unfold added_units_theoretical, added_units. apply clip_lower_ge. }
  destruct (feasibility_range row) as [Hf0 Hf1].
  pose proof (feasibility_at_most_quarter row) as Hq.
  assert (Hle : added_units_theoretical row * feasibility row
                <= added_units_theoretical row * 0.25).
  { rewrite (Qmult_comm _ (feasibility row)), (Qmult_comm _ 0.25).
    apply Qmult_le_compat_r; assumption. }
  split; [apply Qmult_le_0_compat; lra |].
  split; lra.
Qed.

Lemma feasibility_positive_counts (row : parcel_row) (n m : nat) :
  feasibility (with_num_buildings (S n) row)
  = feasibility (with_num_buildings (S m) row).
Proof. reflexivity. Qed.

(** X26: the scorer looks at the building count only to tell a vacant
    parcel from a built one, and only on a slope: any two positive counts
    give the same factor, and off the slope layers the count changes
    nothing. *)
Theorem feasibility_ignores_building_count (row : parcel_row) :
  (forall n m,
      feasibility (with_num_buildings (S n) row)
      = feasibility (with_num_buildings (S m) row))
  /\ (is_steep_slope row = false -> is_moderate_slope row = false ->
      forall n, feasibility (with_num_buildings n row) = feasibility row).
Proof.
  split; [apply feasibility_positive_counts |].
  intros Hsteep Hmoderate n. unfold feasibility. simpl.
  rewrite Hsteep, Hmoderate. reflexivity.
Qed.

Lemma feasibility_ignores_building_count_witness :
  feasibility (with_num_buildings 3 sample_parcel)
  = feasibility (with_num_buildings 8 sample_parcel)
  /\ feasibility (with_num_buildings 0 sample_parcel)
     = feasibility sample_parcel.
Proof.
  destruct (feasibility_ignores_building_count sample_parcel)
    as [Hcount Hflat].
  split; [apply Hcount | apply Hflat; reflexivity].
Defined.

End CapacityFacts.

Section UtilizationFacts.

(** X8: [get_baseline_far] has no cap for the special height codes: it
    equals the height-derived FAR of [baseline_units] for heights below
    1000, and from 1000 on it is (h / 10) x 0.8, strictly above the 32
    that [baseline_units] uses there. *)
Theorem get_baseline_far_vs_height_based_far :
  (forall row h, gen_hght row = Some h -> 0 < h -> h < 1000 ->
      get_baseline_far row = height_based_far (gen_hght row))
  /\ (forall row h, gen_hght row = Some h -> 1000 <= h ->
        get_baseline_far row == h / 10 * 0.8
        /\ height_based_far (gen_hght row) == 32
        /\ height_based_far (gen_hght row) < get_baseline_far row).
Proof.
  split.
  - intros row h Hh Hpos Hlt. unfold get_baseline_far, height_based_far.
    rewrite Hh. destruct (Qlt_le_dec 0 h); [| lra].
    destruct (Qlt_le_dec h 1000); [reflexivity | lra].
  - intros row h Hh Hge. unfold get_baseline_far, height_based_far.
    rewrite Hh. destruct (Qlt_le_dec 0 h); [| lra].
    destruct (Qlt_le_dec h 1000); [lra |].
    unfold FLOOR_HEIGHT_FT, Qdiv. change (/ 10) with 0.1.
    split; [reflexivity |]. split; [reflexivity | lra].
Qed.

Lemma get_baseline_far_vs_height_based_far_witness :
  get_baseline_far Samples.low_height_parcel
  = height_based_far (gen_hght Samples.low_height_parcel)
  /\ height_based_far (gen_hght Samples.built_out_parcel)
     < get_baseline_far Samples.built_out_parcel.
Proof.
  destruct get_baseline_far_vs_height_based_far as (Hlow & Hhigh).
  split.
  - apply (Hlow Samples.low_height_parcel 20); reflexivity.
  - apply (Hhigh Samples.built_out_parcel 8888); [reflexivity | discriminate].
Defined.

Lemma clip_upper_le (u x : Q) : Py.clip_upper u x <= u.
Proof. unfold Py.clip_upper. destruct (Qlt_le_dec u x); lra. Qed.

Lemma get_sb79_utilization_nonneg (row : parcel_row) :
  0 <= existing_far row -> 0 <= get_sb79_utilization row.
Proof.
  intros He. unfold get_sb79_utilization.
  destruct (Qeq_bool (existing_far row) 0); [discriminate |].
  destruct (FloorAreaRatio row) as [f |]; [| discriminate].
  destruct (Qlt_le_dec 0 f); [| discriminate].
  apply Qle_shift_div_l; [assumption | lra].
Qed.

(** X9: for a non-negative existing FAR the utilization stays within
    0 and 2. *)
Theorem utilization_bounds (row : parcel_row) :
  0 <= existing_far row ->
  0 <= utilization row /\ utilization row <= 2.
Proof.
  intros He. split.
  - unfold utilization, Py.clip_upper.
    pose proof (get_sb79_utilization_nonneg row He).
    destruct (Qlt_le_dec _ _); [discriminate | assumption].
  - pose proof (clip_upper_le 2.0 (get_sb79_utilization row)) as H.
    unfold utilization. lra.
Qed.

Lemma utilization_bounds_witness :
  0 <= utilization Samples.built_out_parcel
  /\ utilization Samples.built_out_parcel <= 2.
Proof.
  apply (utilization_bounds Samples.built_out_parcel). discriminate.
Defined.

Lemma above_threshold_clipped (x : Q) :
  0.8 < Py.clip_upper 2.0 x <-> 0.8 < x.
Proof.
  unfold Py.clip_upper. destruct (Qlt_le_dec 2.0 x); split; intros H; lra.
Qed.

Lemma quotient_above (c e f : Q) : 0 < f -> (c < e / f <-> c * f < e).
Proof.
  intros Hf. split; intros H.
  - apply (Qmult_lt_r _ _ f Hf) in H.
    assert (E : e / f * f == e) by (field; lra). lra.
  - apply (Qmult_lt_r _ _ f Hf).
    assert (E : e / f * f == e) by (field; lra). lra.
Qed.

Lemma get_sb79_utilization_above (row : parcel_row) :
  0.8 < get_sb79_utilization row
  <-> exists f, FloorAreaRatio row = Some f /\ 0 < f
                /\ 0.8 * f < existing_far row.
Proof.
  unfold get_sb79_utilization.
  destruct (Qeq_bool (existing_far row) 0) eqn:Hz.
  - apply Qeq_bool_eq in Hz. split; [discriminate |].
    intros (f & _ & Hpos & Hlt). lra.
  - destruct (FloorAreaRatio row) as [f |].
    + destruct (Qlt_le_dec 0 f) as [Hpos | Hle].
      * rewrite (quotient_above _ _ _ Hpos). split.
        -- intros H. exists f. auto.
        -- intros (f' & [= <-] & _ & H). exact H.
      * split; [discriminate |].
        intros (f' & [= <-] & Hpos & _). lra.
    + split; [discriminate |]. intros (f & Hf & _). discriminate.
Qed.

Lemma is_highly_utilized_true (row : parcel_row) :
  is_highly_utilized row = true <-> 0.8 < utilization row.
Proof.
  unfold is_highly_utilized, UTILIZATION_THRESHOLD.
  destruct (Qlt_le_dec 0.8 (utilization row)); split; intros H;
    try reflexivity; try assumption; try discriminate; lra.
Qed.

(** X10: a parcel is flagged as highly utilized exactly when it has a
    positive tier FAR and is built to more than 80% of it. *)
Theorem is_highly_utilized_iff (row : parcel_row) :
  is_highly_utilized row = true
  <-> exists f, FloorAreaRatio row = Some f /\ 0 < f
                /\ 0.8 * f < existing_far row.
Proof.
  rewrite is_highly_utilized_true. unfold utilization.
  rewrite above_threshold_clipped. apply get_sb79_utilization_above.
Qed.

Lemma is_highly_utilized_iff_witness :
  is_highly_utilized Samples.built_out_parcel = true
  <-> exists f, FloorAreaRatio Samples.built_out_parcel = Some f /\ 0 < f
                /\ 0.8 * f < existing_far Samples.built_out_parcel.
Proof. apply (is_highly_utilized_iff Samples.built_out_parcel). Defined.

End UtilizationFacts.

Section ExclusionFacts.

Context (ids : gset nat).

Lemma filter_twice {A} (p q : A -> bool) (l : list A) :
  List.filter p (List.filter q l) = List.filter (fun x => q x && p x) l.
Proof.
  induction l as [| x l IH]; [reflexivity |]. simpl.
  destruct (q x); simpl; [| exact IH].
  destruct (p x); rewrite IH; reflexivity.
Qed.

Lemma remaining_is_filter (rows : list parcel_row) :
  remaining (apply_exclusions ids rows) = List.filter (survives ids) rows.
Proof.
  unfold apply_exclusions, exclude_open_space, exclude_large,
    exclude_highly_utilized, survives. simpl.
  induction rows as [| r rows IH]; [reflexivity |]. simpl.
  destruct (is_open_space ids r); simpl; [exact IH |].
  destruct (within_max_area r); simpl; [| exact IH].
  destruct (is_highly_utilized r); simpl; [exact IH |].
  rewrite IH. reflexivity.
Qed.

(** X12: a parcel is kept exactly when it is not open space, is at most one
    acre and is not highly utilized; the order of the three exclusions
    does not change which parcels are kept. *)
Theorem exclusions_keep_survivors (rows : list parcel_row) :
  (forall row, In row (remaining (apply_exclusions ids rows))
     <-> In row rows
         /\ (parcel_id row ∉ ids)
         /\ parcel_area_sf row <= 43560
         /\ utilization row <= 0.8)
  /\ remaining (apply_exclusions ids rows)
     = exclude_open_space ids (exclude_large (exclude_highly_utilized rows))
  /\ remaining (apply_exclusions ids rows)
     = exclude_large (exclude_highly_utilized (exclude_open_space ids rows)).
Proof.
  split; [| split].
  - intros row. rewrite remaining_is_filter, filter_In.
    unfold survives, is_open_space, within_max_area, MAX_PARCEL_SQFT.
    rewrite !andb_true_iff, !negb_true_iff, bool_decide_eq_false.
    assert (Hu : is_highly_utilized row = false <-> utilization row <= 0.8).
    { pose proof (is_highly_utilized_true row) as Ht.
      destruct (is_highly_utilized row); split; intros H.
      - discriminate.
      - assert (0.8 < utilization row) by (apply Ht; reflexivity). lra.
      - apply Qnot_lt_le. intros Hlt. apply Ht in Hlt. discriminate.
      - reflexivity. }
    rewrite Hu.
    destruct (Qlt_le_dec 43560 (parcel_area_sf row)); intuition; lra.
  - rewrite remaining_is_filter.
    unfold exclude_open_space, exclude_large, exclude_highly_utilized.
    rewrite !filter_twice. apply List.filter_ext. intros row.
    unfold survives.
    destruct (is_open_space ids row), (within_max_area row),
      (is_highly_utilized row); reflexivity.
  - rewrite remaining_is_filter.
    unfold exclude_open_space, exclude_large, exclude_highly_utilized.
    rewrite !filter_twice. apply List.filter_ext. intros row.
    unfold survives.
    destruct (is_open_space ids row), (within_max_area row),
      (is_highly_utilized row); reflexivity.
Qed.


End ExclusionFacts.

Lemma exclusions_keep_survivors_witness :
  In sample_parcel
     (remaining (apply_exclusions {[ 1%nat ]}
                   [sample_parcel; commercial_parcel; Samples.built_out_parcel]))
  <-> In sample_parcel
         [sample_parcel; commercial_parcel; Samples.built_out_parcel]
      /\ (parcel_id sample_parcel ∉ ({[ 1%nat ]} : gset nat))
      /\ parcel_area_sf sample_parcel <= 43560
      /\ utilization sample_parcel <= 0.8.
Proof.
  apply (exclusions_keep_survivors {[ 1%nat ]}
           [sample_parcel; commercial_parcel; Samples.built_out_parcel]).
Defined.

Module FrameFacts.
Import Frame.

Section Keyed.

Context {A : Type} (key : A -> nat).

Lemma drop_duplicates_from_In (rows : list A) :
  forall (seen : gset nat) (x : A),
    In x (drop_duplicates_by_from key seen rows) ->
    In x rows /\ key x ∉ seen.
Proof.
  induction rows as [| r rows IH]; intros seen x; simpl; [tauto |].
  destruct (bool_decide_reflect (key r ∈ seen)) as [Hseen | Hnew].
  - intros Hx. destruct (IH _ _ Hx). tauto.
  - intros [<- | Hx]; [tauto |].
    destruct (IH _ _ Hx) as [Hin Hk]. split; [tauto |].
    intros Hs. apply Hk. apply elem_of_union_r. exact Hs.
Qed.

Lemma drop_duplicates_from_NoDup (rows : list A) :
  forall seen : gset nat,
    List.NoDup (List.map key (drop_duplicates_by_from key seen rows)).
Proof.
  induction rows as [| r rows IH]; intros seen; simpl; [constructor |].
  destruct (bool_decide_reflect (key r ∈ seen)) as [Hseen | Hnew];
    [apply IH |].
  simpl. constructor; [| apply IH].
  intros Hin. apply in_map_iff in Hin as (x & Hkx & Hx).
  apply drop_duplicates_from_In in Hx as [_ Hk].
  apply Hk. apply elem_of_union_l, elem_of_singleton. exact Hkx.
Qed.

Lemma rows_of_dedup_from (k : nat) (rows : list A) :
  forall seen : gset nat,
    rows_with key k (drop_duplicates_by_from key seen rows)
    = if bool_decide (k ∈ seen) then [] else first_with key k rows.
Proof.
  unfold rows_with, first_with.
  induction rows as [| r rows IH]; intros seen; simpl.
  - destruct (bool_decide (k ∈ seen)); reflexivity.
  - destruct (bool_decide_reflect (key r ∈ seen)) as [Hseen | Hnew].
    + rewrite IH.
      destruct (Nat.eqb_spec (key r) k) as [<- | Hne]; [| reflexivity].
      rewrite bool_decide_eq_true_2 by exact Hseen. reflexivity.
    + simpl. rewrite IH.
      destruct (Nat.eqb_spec (key r) k) as [<- | Hne].
      * rewrite bool_decide_eq_true_2
          by (apply elem_of_union_l, elem_of_singleton; reflexivity).
        rewrite bool_decide_eq_false_2 by exact Hnew. reflexivity.
      * destruct (bool_decide_reflect (k ∈ seen)) as [Hk | Hk].
        -- rewrite bool_decide_eq_true_2
             by (apply elem_of_union_r; exact Hk).
           reflexivity.
        -- rewrite bool_decide_eq_false_2; [reflexivity |].
           rewrite elem_of_union, elem_of_singleton. intuition.
Qed.

Lemma drop_duplicates_from_fresh (rows : list A) :
  forall seen : gset nat,
    List.NoDup (List.map key rows) ->
    (forall x, In x rows -> key x ∉ seen) ->
    drop_duplicates_by_from key seen rows = rows.
Proof.
  induction rows as [| r rows IH]; intros seen Hnd Hfresh; simpl;
    [reflexivity |].
  inversion Hnd as [| ? ? Hr Hrest]; subst.
  rewrite bool_decide_eq_false_2 by (apply Hfresh; left; reflexivity).
  f_equal. apply IH; [exact Hrest |].
  intros x Hx Hs. apply elem_of_union in Hs as [Hs | Hs].
  - apply elem_of_singleton in Hs. apply Hr.
    rewrite <- Hs. apply in_map. exact Hx.
  - apply (Hfresh x); [right; exact Hx | exact Hs].
Qed.

Lemma first_of_present (k : nat) (rows : list A) :
  In k (List.map key rows) -> exists w, first_with key k rows = [w].
Proof.
  unfold first_with. induction rows as [| r rows IH]; simpl; [tauto |].
  destruct (Nat.eqb_spec (key r) k) as [Hk | Hne].
  - intros _. exists r. reflexivity.
  - intros [Hr | Hin]; [contradiction | apply IH; exact Hin].
Qed.

Lemma rows_of_dedup (rows : list A) (k : nat) :
  rows_with key k (drop_duplicates_by key rows) = first_with key k rows.
Proof.
  unfold drop_duplicates_by. rewrite rows_of_dedup_from.
  rewrite bool_decide_eq_false_2; [reflexivity | apply not_elem_of_empty].
Qed.

Lemma drop_duplicates_NoDup (rows : list A) :
  List.NoDup (List.map key (drop_duplicates_by key rows)).
Proof. apply drop_duplicates_from_NoDup. Qed.

Lemma drop_duplicates_In (rows : list A) (x : A) :
  In x (drop_duplicates_by key rows) -> In x rows.
Proof. intros Hx. apply (drop_duplicates_from_In rows ∅ x Hx). Qed.

Lemma drop_duplicates_first (rows : list A) (k : nat) :
  In k (List.map key rows) ->
  exists w, rows_with key k (drop_duplicates_by key rows) = [w]
            /\ In w rows /\ key w = k.
Proof.
  intros Hk. destruct (first_of_present k rows Hk) as [w Hw].
  exists w. rewrite rows_of_dedup. split; [exact Hw |].
  unfold first_with in Hw.
  destruct (List.find _ rows) as [w' |] eqn:Hfind; [| discriminate].
  injection Hw as ->. apply List.find_some in Hfind as [Hin Hkey].
  split; [exact Hin | apply Nat.eqb_eq; exact Hkey].
Qed.

Lemma drop_duplicates_keys (rows : list A) (k : nat) :
  In k (List.map key rows) <-> In k (List.map key (drop_duplicates_by key rows)).
Proof.
  split.
  - intros Hk. destruct (drop_duplicates_first rows k Hk) as (w & Hw & _ & Hkey).
    apply in_map_iff. exists w. split; [exact Hkey |].
    assert (Hin : In w (rows_with key k (drop_duplicates_by key rows)))
      by (rewrite Hw; left; reflexivity).
    apply filter_In in Hin as [Hin _]. exact Hin.
  - intros Hk. apply in_map_iff in Hk as (w & <- & Hw).
    apply in_map. apply drop_duplicates_In. exact Hw.
Qed.

(** X13: [drop_duplicates] leaves exactly one row for every key of the
    table, the first one in row order, and nothing that was not in the
    table; doing it twice changes nothing. *)
Theorem drop_duplicates_keeps_first (rows : list A) :
  List.NoDup (List.map key (drop_duplicates_by key rows))
  /\ (forall k, rows_with key k (drop_duplicates_by key rows) = first_with key k rows)
  /\ (forall k, In k (List.map key rows) ->
                exists w, rows_with key k (drop_duplicates_by key rows) = [w]
                          /\ In w rows /\ key w = k)
  /\ (forall x, In x (drop_duplicates_by key rows) -> In x rows)
  /\ drop_duplicates_by key (drop_duplicates_by key rows) = drop_duplicates_by key rows.
Proof.
  split; [apply drop_duplicates_NoDup |].
  split; [apply rows_of_dedup |].
  split; [apply drop_duplicates_first |].
  split; [apply drop_duplicates_In |].
  apply drop_duplicates_from_fresh; [apply drop_duplicates_NoDup |].
  intros x _. apply not_elem_of_empty.
Qed.

End Keyed.

Lemma drop_duplicates_keeps_first_witness :
  exists w,
    rows_with Samples.row_key 0 (drop_duplicates_by Samples.row_key Samples.sample_rows)
    = [w]
    /\ In w Samples.sample_rows /\ Samples.row_key w = 0%nat.
Proof.
  destruct (drop_duplicates_keeps_first Samples.row_key Samples.sample_rows)
    as (_ & _ & Hfirst & _).
  apply Hfirst. simpl. tauto.
Defined.

Section Join.

Context {L R : Type} (matches : L -> R -> bool) (key : L -> nat).

Lemma join_row_shape (l : L) (right : list R) :
  exists rest,
    join_row matches l right = (l, first_matching matches l right) :: rest
    /\ forall row, In row rest -> fst row = l.
Proof.
  unfold join_row, first_matching.
  destruct (List.filter (matches l) right) as [| m ms]; simpl.
  - exists []. split; [reflexivity | intros row []].
  - exists (List.map (fun r => (l, Some r)) ms). split; [reflexivity |].
    intros row Hrow. apply in_map_iff in Hrow as (r & <- & _). reflexivity.
Qed.

Lemma drop_duplicates_from_seen (k : nat) (rows ys : list (L * option R)) :
  forall seen : gset nat,
    k ∈ seen -> (forall row, In row rows -> left_key key row = k) ->
    drop_duplicates_by_from (left_key key) seen (rows ++ ys)
    = drop_duplicates_by_from (left_key key) seen ys.
Proof.
  induction rows as [| r rows IH]; intros seen Hk Hall; [reflexivity |].
  simpl. rewrite bool_decide_eq_true_2.
  - apply IH; [exact Hk |]. intros row Hrow. apply Hall. right. exact Hrow.
  - rewrite (Hall r) by (left; reflexivity). exact Hk.
Qed.

Lemma dedup_left_join_from (left : list L) (right : list R) :
  forall seen : gset nat,
    List.NoDup (List.map key left) ->
    (forall l, In l left -> key l ∉ seen) ->
    drop_duplicates_by_from (left_key key) seen (left_join matches left right)
    = List.map (fun l => (l, first_matching matches l right)) left.
Proof.
  induction left as [| l left IH]; intros seen Hnd Hfresh; [reflexivity |].
  inversion Hnd as [| ? ? Hl Hrest]; subst.
  unfold left_join. simpl. fold (left_join matches left right).
  destruct (join_row_shape l right) as (rest & -> & Hsame).
  simpl.
  change (left_key key (l, first_matching matches l right)) with (key l).
  rewrite bool_decide_eq_false_2 by (apply Hfresh; left; reflexivity).
  f_equal.
  rewrite (drop_duplicates_from_seen (key l)).
  - apply IH; [exact Hrest |].
    intros l' Hl' Hs. apply elem_of_union in Hs as [Hs | Hs].
    + apply elem_of_singleton in Hs. apply Hl. rewrite <- Hs.
      apply in_map. exact Hl'.
    + apply (Hfresh l'); [right; exact Hl' | exact Hs].
  - apply elem_of_union_l, elem_of_singleton. reflexivity.
  - intros row Hrow. unfold left_key. rewrite (Hsame row Hrow). reflexivity.
Qed.

Lemma dedup_left_join (left : list L) (right : list R) :
  List.NoDup (List.map key left) ->
  drop_duplicates_by (left_key key) (left_join matches left right)
  = List.map (fun l => (l, first_matching matches l right)) left.
Proof.
  intros Hnd. apply dedup_left_join_from; [exact Hnd |].
  intros l _. apply not_elem_of_empty.
Qed.

Lemma filter_none {A : Type} (p : A -> bool) (l : list A) :
  (forall x, In x l -> p x = false) -> List.filter p l = [].
Proof.
  induction l as [| x l IH]; intros Hall; [reflexivity |]. simpl.
  rewrite (Hall x) by (left; reflexivity).
  apply IH. intros y Hy. apply Hall. right. exact Hy.
Qed.

Lemma join_row_fst (l : L) (right : list R) (row : L * option R) :
  In row (join_row matches l right) -> fst row = l.
Proof.
  intros Hrow. destruct (join_row_shape l right) as (rest & Heq & Hrest).
  rewrite Heq in Hrow. destruct Hrow as [<- | Hrow]; [reflexivity |].
  apply Hrest. exact Hrow.
Qed.

Lemma left_join_fst (left : list L) (right : list R) (row : L * option R) :
  In row (left_join matches left right) -> In (fst row) left.
Proof.
  unfold left_join. intros Hrow.
  apply in_flat_map in Hrow as (l & Hl & Hrow).
  rewrite (join_row_fst l right row Hrow). exact Hl.
Qed.

Lemma rows_of_left_join (left : list L) (right : list R) (l : L) :
  List.NoDup (List.map key left) -> In l left ->
  rows_with (left_key key) (key l) (left_join matches left right)
  = join_row matches l right.
Proof.
  unfold rows_with.
  induction left as [| x left IH]; intros Hnd Hl; [destruct Hl |].
  inversion Hnd as [| ? ? Hx Hrest]; subst.
  unfold left_join. simpl. fold (left_join matches left right).
  rewrite List.filter_app.
  destruct Hl as [-> | Hl].
  - assert (Hall : List.filter (fun r => Nat.eqb (left_key key r) (key l))
                     (join_row matches l right) = join_row matches l right).
    { apply List.forallb_filter_id. apply List.forallb_forall.
      intros row Hrow. unfold left_key.
      rewrite (join_row_fst l right row Hrow). apply Nat.eqb_refl. }
    assert (Hnone : List.filter (fun r => Nat.eqb (left_key key r) (key l))
                      (left_join matches left right) = []).
    { apply filter_none. intros row Hrow.
      apply Nat.eqb_neq. intros Hk. apply Hx. rewrite <- Hk.
      unfold left_key. apply in_map.
      apply (left_join_fst left right row Hrow). }
    rewrite Hall, Hnone. apply List.app_nil_r.
  - assert (Hnone : List.filter (fun r => Nat.eqb (left_key key r) (key l))
                      (join_row matches x right) = []).
    { apply filter_none. intros row Hrow.
      apply Nat.eqb_neq. intros Hk. apply Hx.
      unfold left_key in Hk. rewrite (join_row_fst x right row Hrow) in Hk.
      rewrite Hk. apply in_map. exact Hl. }
    rewrite Hnone. simpl. apply IH; assumption.
Qed.

Lemma first_matching_None (l : L) (right : list R) :
  first_matching matches l right = None ->
  forall r, In r right -> matches l r = false.
Proof.
  unfold first_matching. intros Hnone r Hr.
  destruct (matches l r) eqn:Hm; [| reflexivity].
  assert (Hin : In r (List.filter (matches l) right))
    by (apply filter_In; split; assumption).
  destruct (List.filter (matches l) right); [destruct Hin | discriminate].
Qed.

Lemma first_matching_matches (l : L) (right : list R) (r : R) :
  first_matching matches l right = Some r ->
  In r right /\ matches l r = true.
Proof.
  unfold first_matching. intros Hr.
  destruct (List.filter (matches l) right) as [| m ms] eqn:Hf;
    [discriminate |].
  injection Hr as <-. apply filter_In. rewrite Hf. left. reflexivity.
Qed.

(** X14: a left join followed by [drop_duplicates] on the left key has one
    row per left row, in the order of the left table; the row carries a
    right row that matches, or nothing when no right row matches. *)
Theorem left_join_dedup_one_row_each (left : list L) (right : list R) :
  List.NoDup (List.map key left) ->
  let joined := drop_duplicates_by (left_key key) (left_join matches left right) in
  List.map fst joined = left
  /\ length joined = length left
  /\ forall l attached, In (l, attached) joined ->
       match attached with
       | Some r => In r right /\ matches l r = true
       | None => forall r, In r right -> matches l r = false
       end.
Proof.
  intros Hnd joined. subst joined. rewrite (dedup_left_join left right Hnd).
  split; [| split; [apply length_map |]].
  - rewrite List.map_map. simpl. apply List.map_id.
  - intros l attached Hin. apply in_map_iff in Hin as (l' & [= -> <-] & _).
    destruct (first_matching matches l right) as [r |] eqn:Hfm.
    + apply first_matching_matches. exact Hfm.
    + apply first_matching_None. exact Hfm.
Qed.

Lemma first_matching_Some (l : L) (right : list R) :
  (exists r, first_matching matches l right = Some r)
  <-> exists r, In r right /\ matches l r = true.
Proof.
  unfold first_matching. split.
  - intros [r Hr].
    destruct (List.filter (matches l) right) as [| m ms] eqn:Hf;
      [discriminate |].
    exists m. apply filter_In. rewrite Hf. left. reflexivity.
  - intros (r & Hin & Hm).
    assert (Hr : In r (List.filter (matches l) right))
      by (apply filter_In; split; assumption).
    destruct (List.filter (matches l) right) as [| m ms]; [destruct Hr |].
    exists m. reflexivity.
Qed.

Lemma flagged_ids_matches (left : list L) (right : list R) (k : nat) :
  List.NoDup (List.map key left) ->
  k ∈ flagged_ids key (left_join matches left right)
  <-> exists l, In l left /\ key l = k
                /\ exists r, In r right /\ matches l r = true.
Proof.
  intros Hnd. unfold flagged_ids.
  rewrite (dedup_left_join left right Hnd).
  rewrite elem_of_list_to_set, list_elem_of_In, in_map_iff.
  split.
  - intros (row & Hk & Hrow). apply filter_In in Hrow as [Hrow Hflag].
    apply in_map_iff in Hrow as (l & <- & Hl). simpl in Hflag.
    exists l. split; [exact Hl |]. split; [exact Hk |].
    apply first_matching_Some.
    destruct (first_matching matches l right) as [r |]; [| discriminate].
    exists r. reflexivity.
  - intros (l & Hl & Hk & Hm). apply first_matching_Some in Hm as [r Hr].
    exists (l, first_matching matches l right). split; [exact Hk |].
    apply filter_In. split.
    + apply in_map_iff. exists l. split; [reflexivity | exact Hl].
    + simpl. rewrite Hr. reflexivity.
Qed.

(** X15: the set of flagged ids holds exactly the ids of the left rows that
    match some right row: taking the first row of each id before looking
    at the flag loses no match.  In particular an empty right table flags
    nothing. *)
Theorem flagged_ids_iff (left : list L) (right : list R) :
  List.NoDup (List.map key left) ->
  (forall k,
      k ∈ flagged_ids key (left_join matches left right)
      <-> exists l, In l left /\ key l = k
                    /\ exists r, In r right /\ matches l r = true)
  /\ (right = [] -> flagged_ids key (left_join matches left right) = ∅).
Proof.
  intros Hnd. split.
  - intros k. apply flagged_ids_matches. exact Hnd.
  - intros ->. apply set_eq. intros k.
    rewrite (flagged_ids_matches left [] k Hnd). split.
    + intros (l & _ & _ & r & [] & _).
    + intros Hk. exfalso. revert Hk. apply not_elem_of_empty.
Qed.

End Join.

Lemma left_join_dedup_one_row_each_witness :
  let joined :=
    drop_duplicates_by (left_key Samples.parcel_key)
      (left_join Samples.inside Samples.sample_parcels
         Samples.sample_zoning_districts) in
  List.map fst joined = Samples.sample_parcels
  /\ length joined = length Samples.sample_parcels
  /\ forall l attached, In (l, attached) joined ->
       match attached with
       | Some r => In r Samples.sample_zoning_districts
                   /\ Samples.inside l r = true
       | None => forall r, In r Samples.sample_zoning_districts ->
                           Samples.inside l r = false
       end.
Proof.
  apply (left_join_dedup_one_row_each Samples.inside Samples.parcel_key
           Samples.sample_parcels Samples.sample_zoning_districts).
  distinct_numbers.
Defined.

Lemma flagged_ids_iff_witness :
  (forall k,
      k ∈ flagged_ids Samples.parcel_key
            (left_join Samples.inside Samples.sample_parcels
               Samples.sample_height_districts)
      <-> exists l, In l Samples.sample_parcels /\ Samples.parcel_key l = k
                    /\ exists r, In r Samples.sample_height_districts
                                 /\ Samples.inside l r = true)
  /\ (Samples.sample_height_districts = [] ->
      flagged_ids Samples.parcel_key
        (left_join Samples.inside Samples.sample_parcels
           Samples.sample_height_districts) = ∅).
Proof.
  apply (flagged_ids_iff Samples.inside Samples.parcel_key
           Samples.sample_parcels Samples.sample_height_districts).
  distinct_numbers.
Defined.

Section Merge.

Context {L R : Type} (left_on : L -> nat) (right_on : R -> nat).

Lemma filter_unique_key (k : nat) (right : list R) :
  List.NoDup (List.map right_on right) ->
  List.filter (fun r => Nat.eqb (right_on r) k) right
  = match List.find (fun r => Nat.eqb (right_on r) k) right with
    | Some r => [r]
    | None => []
    end.
Proof.
  induction right as [| r right IH]; intros Hnd; [reflexivity |].
  inversion Hnd as [| ? ? Hr Hrest]; subst. simpl.
  destruct (Nat.eqb_spec (right_on r) k) as [Hk | Hne];
    [| apply IH; exact Hrest].
  f_equal.
  assert (Hnone : forall l : list R,
             ~ In k (List.map right_on l) ->
             List.filter (fun r => Nat.eqb (right_on r) k) l = []).
  { induction l as [| y l IHl]; intros Hnot; [reflexivity |]. simpl.
    destruct (Nat.eqb_spec (right_on y) k) as [Hy | _].
    - exfalso. apply Hnot. left. exact Hy.
    - apply IHl. intros Hin. apply Hnot. right. exact Hin. }
  apply Hnone. rewrite <- Hk. exact Hr.
Qed.

Lemma merge_left_lookup (left : list L) (right : list R) :
  List.NoDup (List.map right_on right) ->
  merge_left left_on right_on left right
  = List.map
      (fun l => (l, List.find (fun r => Nat.eqb (right_on r) (left_on l)) right))
      left.
Proof.
  intros Hnd. unfold merge_left, left_join.
  induction left as [| l left IH]; [reflexivity |]. simpl.
  rewrite IH. unfold join_row, same_key.
  rewrite (filter_unique_key (left_on l) right Hnd).
  destruct (List.find _ right); reflexivity.
Qed.

(** X16: merging a right table whose keys are unique (a deduplicated or
    a grouped table) keeps the left table as it is, row for row, and
    attaches to each row the right row of its key, if any. *)
Theorem merge_left_unique_right (left : list L) (right : list R) :
  List.NoDup (List.map right_on right) ->
  merge_left left_on right_on left right
  = List.map
      (fun l => (l, List.find (fun r => Nat.eqb (right_on r) (left_on l)) right))
      left
  /\ List.map fst (merge_left left_on right_on left right) = left
  /\ length (merge_left left_on right_on left right) = length left.
Proof.
  intros Hnd. rewrite (merge_left_lookup left right Hnd).
  split; [reflexivity |]. split; [| apply length_map].
  rewrite List.map_map. simpl. apply List.map_id.
Qed.

End Merge.

Lemma merge_left_unique_right_witness :
  List.map fst
    (merge_left Samples.parcel_key Samples.row_key Samples.sample_parcels
       (drop_duplicates_by Samples.row_key Samples.sample_rows))
  = Samples.sample_parcels.
Proof.
  apply (merge_left_unique_right Samples.parcel_key Samples.row_key
           Samples.sample_parcels
           (drop_duplicates_by Samples.row_key Samples.sample_rows)).
  distinct_numbers.
Defined.

Section Pipeline.

Context {P Z H : Type} (parcel_id : P -> nat).
Context (within_zoning : P -> Z -> bool) (within_height : P -> H -> bool).

(** X27: joining the parcels to two layers, deduplicating each join and
    merging the second onto the first on the parcel id gives one row per
    parcel, in the order of the parcels, however many districts of either
    layer a parcel falls in. *)
Theorem merged_joins_one_row_per_parcel (parcels : list P)
    (zoning_districts : list Z) (height_districts : list H) :
  List.NoDup (List.map parcel_id parcels) ->
  let parcel_zoning :=
    drop_duplicates_by (left_key parcel_id)
      (left_join within_zoning parcels zoning_districts) in
  let parcel_height :=
    drop_duplicates_by (left_key parcel_id)
      (left_join within_height parcels height_districts) in
  let parcel_all :=
    merge_left (left_key parcel_id) (left_key parcel_id)
      parcel_zoning parcel_height in
  List.map (fun row => fst (fst row)) parcel_all = parcels
  /\ length parcel_all = length parcels
  /\ List.NoDup (List.map (fun row => parcel_id (fst (fst row))) parcel_all).
Proof.
  intros Hnd parcel_zoning parcel_height parcel_all.
  assert (Hall : List.map (fun row => fst (fst row)) parcel_all = parcels).
  { subst parcel_all.
    rewrite merge_left_lookup by apply drop_duplicates_NoDup.
    subst parcel_zoning.
    rewrite (dedup_left_join within_zoning parcel_id parcels _ Hnd).
    rewrite !List.map_map. simpl. apply List.map_id. }
  split; [exact Hall |]. split.
  - rewrite <- (length_map (fun row => fst (fst row)) parcel_all).
    rewrite Hall. reflexivity.
  - rewrite <- (List.map_map (fun row => fst (fst row)) parcel_id).
    rewrite Hall. exact Hnd.
Qed.

End Pipeline.

Lemma merged_joins_one_row_per_parcel_witness :
  let parcel_zoning :=
    drop_duplicates_by (left_key Samples.parcel_key)
      (left_join Samples.inside Samples.sample_parcels
         Samples.sample_zoning_districts) in
  let parcel_height :=
    drop_duplicates_by (left_key Samples.parcel_key)
      (left_join Samples.inside Samples.sample_parcels
         Samples.sample_height_districts) in
  let parcel_all :=
    merge_left (left_key Samples.parcel_key) (left_key Samples.parcel_key)
      parcel_zoning parcel_height in
  List.map (fun row => fst (fst row)) parcel_all = Samples.sample_parcels
  /\ length parcel_all = length Samples.sample_parcels
  /\ List.NoDup
       (List.map (fun row => Samples.parcel_key (fst (fst row))) parcel_all).
Proof.
  apply (merged_joins_one_row_per_parcel Samples.parcel_key Samples.inside
           Samples.inside Samples.sample_parcels
           Samples.sample_zoning_districts Samples.sample_height_districts).
  distinct_numbers.
Defined.

End FrameFacts.

Module BuiltAreaFacts.
Import BuiltArea.

Lemma add_building_total (groups : gmap nat (Q * nat)) (r : matched_building)
    (pid : nat) :
  total_built_sqft (add_building groups r) pid
  == total_built_sqft groups pid
     + (if to_pid pid r then gross_floor_area r else 0)
  /\ num_buildings_of (add_building groups r) pid
     = (num_buildings_of groups pid + (if to_pid pid r then 1 else 0))%nat.
Proof.
  unfold add_building, to_pid, total_built_sqft, num_buildings_of.
  destruct (on_parcel r) as [p |]; [| split; [ring | lia]].
  destruct (Nat.eqb_spec p pid) as [-> | Hne].
  - destruct (groups !! pid) as [[total count] |]; simpl;
      rewrite lookup_insert_eq; split; try ring; lia.
  - destruct (groups !! p) as [[total count] |]; simpl;
      rewrite lookup_insert_ne by exact Hne;
      split; try ring; lia.
Qed.

Lemma fold_add_building (rows : list matched_building) (pid : nat) :
  forall groups : gmap nat (Q * nat),
    total_built_sqft (List.fold_left add_building rows groups) pid
    == total_built_sqft groups pid
       + sum_Q (List.map gross_floor_area (List.filter (to_pid pid) rows))
    /\ num_buildings_of (List.fold_left add_building rows groups) pid
       = (num_buildings_of groups pid
          + length (List.filter (to_pid pid) rows))%nat.
Proof.
  induction rows as [| r rows IH]; intros groups; simpl.
  - split; [ring | lia].
  - destruct (IH (add_building groups r)) as [Ht Hn].
    destruct (add_building_total groups r pid) as [Ht' Hn'].
    rewrite Ht, Hn, Ht', Hn'.
    destruct (to_pid pid r); simpl; split; try ring; lia.
Qed.

Lemma sum_Q_nonneg (l : list Q) : List.Forall (fun x => 0 <= x) l -> 0 <= sum_Q l.
Proof.
  induction 1 as [| x l Hx _ IH]; simpl; [discriminate | lra].
Qed.

Lemma built_area_per_parcel_aux (rows : list matched_building) (pid : nat) :
  total_built_sqft (parcel_built_area rows) pid
  == sum_Q (List.map gross_floor_area (attributed_to pid rows))
  /\ num_buildings_of (parcel_built_area rows) pid
     = length (attributed_to pid rows).
Proof.
  unfold parcel_built_area, attributed_to.
  destruct (fold_add_building (Frame.drop_duplicates_by building_id rows) pid ∅)
    as [Ht Hn].
  assert (Ht0 : total_built_sqft ∅ pid = 0) by reflexivity.
  assert (Hn0 : num_buildings_of ∅ pid = 0%nat) by reflexivity.
  rewrite Ht0 in Ht. rewrite Hn0 in Hn.
  split; [rewrite Ht; ring | rewrite Hn; lia].
Qed.

(** X17: after the merge and [fillna(0)], a parcel's built area is the sum of
    the gross floor areas of the footprints attributed to it and its
    building count is their number: both are 0 for a parcel without
    footprints, and the area is not negative when no floor area is. *)
Theorem built_area_per_parcel (rows : list matched_building) (pid : nat) :
  let groups := parcel_built_area rows in
  total_built_sqft groups pid
  == sum_Q (List.map gross_floor_area (attributed_to pid rows))
  /\ num_buildings_of groups pid = length (attributed_to pid rows)
  /\ (attributed_to pid rows = [] ->
      total_built_sqft groups pid == 0 /\ num_buildings_of groups pid = 0%nat)
  /\ (List.Forall (fun r => 0 <= gross_floor_area r) rows ->
      0 <= total_built_sqft groups pid).
Proof.
  intros groups. subst groups.
  destruct (built_area_per_parcel_aux rows pid) as [Ht Hn].
  split; [exact Ht |]. split; [exact Hn |]. split.
  - intros Hnone. rewrite Ht, Hn, Hnone. simpl. split; [reflexivity | lia].
  - intros Hpos. rewrite Ht. unfold attributed_to.
    apply sum_Q_nonneg. apply List.Forall_forall. intros x Hx.
    apply in_map_iff in Hx as (r & <- & Hr).
    apply filter_In in Hr as [Hr _].
    apply FrameFacts.drop_duplicates_In in Hr.
    rewrite List.Forall_forall in Hpos. apply Hpos. exact Hr.
Qed.

Lemma count_once (r : matched_building) (pids : list nat) :
  List.NoDup pids ->
  (sum_nat (List.map (fun p => if to_pid p r then 1 else 0) pids) <= 1)%nat.
Proof.
  induction 1 as [| p pids Hp Hnd IH]; simpl; [lia |].
  destruct (to_pid p r) eqn:Hr; [| lia].
  assert (Hzero : sum_nat (List.map (fun p => if to_pid p r then 1%nat else 0%nat) pids)
                  = 0%nat).
  { clear IH Hnd. induction pids as [| q pids IHq]; [reflexivity |]. simpl.
    destruct (to_pid q r) eqn:Hq.
    - exfalso. apply Hp. left. unfold to_pid in Hr, Hq.
      destruct (on_parcel r) as [x |]; [| discriminate].
      apply Nat.eqb_eq in Hr, Hq. congruence.
    - apply IHq. intros Hin. apply Hp. right. exact Hin. }
  lia.
Qed.

Lemma counts_bounded (rows : list matched_building) (pids : list nat) :
  List.NoDup pids ->
  (sum_nat (List.map (fun p => length (List.filter (to_pid p) rows)) pids)
   <= length rows)%nat.
Proof.
  intros Hnd. induction rows as [| r rows IH]; simpl.
  - induction pids; simpl; [lia |].
    inversion Hnd; subst. auto.
  - assert (Hsplit : forall ps,
               sum_nat (List.map
                          (fun p => length (if to_pid p r
                                            then r :: List.filter (to_pid p) rows
                                            else List.filter (to_pid p) rows)) ps)
               = (sum_nat (List.map (fun p => if to_pid p r then 1%nat else 0%nat) ps)
                  + sum_nat (List.map (fun p => length (List.filter (to_pid p) rows)) ps))%nat).
    { induction ps as [| q ps IHps]; [reflexivity |]. simpl.
      rewrite IHps. destruct (to_pid q r); simpl; lia. }
    rewrite Hsplit. pose proof (count_once r pids Hnd). lia.
Qed.

(** X18: no footprint is counted twice: over any parcels, taken once each,
    the building counts add up to at most the number of different
    footprints in the join. *)
Theorem no_footprint_counted_twice (rows : list matched_building)
    (pids : list nat) :
  List.NoDup pids ->
  (sum_nat (List.map (num_buildings_of (parcel_built_area rows)) pids)
   <= size (list_to_set (List.map building_id rows) : gset nat))%nat.
Proof.
  intros Hnd.
  assert (Hsize : size (list_to_set (List.map building_id rows) : gset nat)
                  = length (Frame.drop_duplicates_by building_id rows)).
  { rewrite <- (length_map building_id).
    rewrite <- (size_list_to_set (C := gset nat)).
    - f_equal. apply set_eq. intros k.
      rewrite !elem_of_list_to_set, !list_elem_of_In.
      apply FrameFacts.drop_duplicates_keys.
    - apply NoDup_ListNoDup. apply FrameFacts.drop_duplicates_NoDup. }
  rewrite Hsize.
  assert (Heq : List.map (num_buildings_of (parcel_built_area rows)) pids
                = List.map (fun p => length (List.filter (to_pid p)
                                      (Frame.drop_duplicates_by building_id rows)))
                    pids).
  { apply List.map_ext. intros p.
    destruct (built_area_per_parcel_aux rows p) as [_ Hn]. exact Hn. }
  rewrite Heq. apply counts_bounded. exact Hnd.
Qed.

Lemma est_floors_at_least_one (b : Footprints.buildings) :
  List.Forall (fun floors => 1 <= floors) (Footprints.est_floors b).
Proof.
  unfold Footprints.est_floors. apply List.Forall_forall. intros x Hx.
  apply in_map_iff in Hx as (h & <- & _). apply clip_lower_ge.
Qed.

(** X19: every footprint counts for at least one floor, whatever its height
    (zero and negative heights included), so its gross floor area is
    never below its footprint area. *)
Theorem gross_floor_area_covers_footprint (areas : list Q)
    (b : Footprints.buildings) :
  List.Forall (fun floors => 1 <= floors) (Footprints.est_floors b)
  /\ (forall i area gfa,
        nth_error areas i = Some area ->
        nth_error (gross_floor_area_sqft areas b) i = Some gfa ->
        0 <= area -> area <= gfa).
Proof.
  split; [apply est_floors_at_least_one |].
  intros i area gfa Harea Hgfa Hpos.
  unfold gross_floor_area_sqft in Hgfa.
  rewrite List.nth_error_map in Hgfa.
  destruct (nth_error (List.combine areas (Footprints.est_floors b)) i)
    as [[a f] |] eqn:Hpair; [| discriminate].
  injection Hgfa as <-. simpl.
  assert (Hin : In (a, f) (List.combine areas (Footprints.est_floors b)))
    by (eapply List.nth_error_In; exact Hpair).
  assert (Hf : 1 <= f).
  { apply List.in_combine_r in Hin.
    pose proof (est_floors_at_least_one b) as Hall.
    rewrite List.Forall_forall in Hall. apply Hall. exact Hin. }
  assert (Ha : a = area).
  { clear - Harea Hpair. revert i Harea Hpair.
    generalize (Footprints.est_floors b) as fs.
    induction areas as [| x xs IH]; intros fs i Harea Hpair;
      [destruct i; discriminate |].
    destruct fs as [| y ys]; [destruct i; discriminate |].
    destruct i as [| i]; simpl in *; [congruence |].
    eapply IH; eassumption. }
  subst a.
  assert (area * 1 <= area * f).
  { rewrite (Qmult_comm area 1), (Qmult_comm area f).
    apply Qmult_le_compat_r; assumption. }
  lra.
Qed.

Lemma built_area_per_parcel_witness :
  (total_built_sqft (parcel_built_area Samples.sample_buildings_with_parcel) 7 == 0
   /\ num_buildings_of (parcel_built_area Samples.sample_buildings_with_parcel) 7
      = 0%nat)
  /\ 0 <= total_built_sqft
            (parcel_built_area Samples.sample_buildings_with_parcel) 5.
Proof.
  split.
  - destruct (built_area_per_parcel Samples.sample_buildings_with_parcel 7)
      as (_ & _ & Hnone & _).
    apply Hnone. reflexivity.
  - destruct (built_area_per_parcel Samples.sample_buildings_with_parcel 5)
      as (_ & _ & _ & Hpos).
    apply Hpos. repeat (apply List.Forall_cons; [discriminate |]).
    apply List.Forall_nil.
Defined.

Lemma no_footprint_counted_twice_witness :
  (sum_nat (List.map
              (num_buildings_of
                 (parcel_built_area Samples.sample_buildings_with_parcel))
              [5%nat; 6%nat])
   <= size (list_to_set
              (List.map building_id Samples.sample_buildings_with_parcel)
            : gset nat))%nat.
Proof.
  apply (no_footprint_counted_twice Samples.sample_buildings_with_parcel
           [5%nat; 6%nat]).
  distinct_numbers.
Defined.

Lemma gross_floor_area_covers_footprint_witness :
  100 <= 100 * Py.clip_lower 1 (6.0 / FLOOR_HEIGHT_M).
Proof.
  destruct (gross_floor_area_covers_footprint Samples.sample_footprint_areas
              Samples.sample_footprints) as [_ Hcover].
  apply (Hcover 0%nat 100 (100 * Py.clip_lower 1 (6.0 / FLOOR_HEIGHT_M)));
    [reflexivity | reflexivity | discriminate].
Defined.

End BuiltAreaFacts.

Section HistoricScoring.

Lemma historic_ladder_range (layers : gset string) (t : string) :
  historic_ladder layers = Some t -> In t HISTORIC_TYPES.
Proof.
  unfold historic_ladder, HISTORIC_TYPES.
  repeat match goal with
         | |- context [if ?c then _ else _] => destruct c
         end; intros [= <-]; simpl; tauto.
Qed.

Lemma feasibility_of_historic (row : parcel_row) (t : string) :
  historic_type row = Some t -> In t HISTORIC_TYPES ->
  In (feasibility row) [0.02; 0.10; 0.15; 0.18].
Proof.
  intros Ht Hin. unfold feasibility. rewrite Ht. unfold cell_is.
  simpl in Hin.
  destruct Hin as [<- | [<- | [<- | [<- | []]]]]; simpl; tauto.
Qed.

(** X20: every type the classifier returns is one the scorer recognises, so
    a classified parcel gets one of the four historic factors, whatever
    its slope, buildings, area and tier. *)
Theorem classified_parcel_scored_as_historic (layers : gset string)
    (row : parcel_row) :
  historic_type row = classify_historic_type layers ->
  classify_historic_type layers <> None ->
  In (feasibility row) [0.02; 0.10; 0.15; 0.18]
  /\ feasibility row <= 0.18.
Proof.
  intros Hrow Hsome.
  destruct (classify_historic_type layers) as [t |] eqn:Hc; [| congruence].
  assert (Hin : In t HISTORIC_TYPES).
  { apply (historic_ladder_range layers). rewrite <- classify_follows_ladder.
    exact Hc. }
  pose proof (feasibility_of_historic row t Hrow Hin) as Hf.
  split; [exact Hf |].
  simpl in Hf. destruct Hf as [<- | [<- | [<- | [<- | []]]]]; discriminate.
Qed.

Lemma intersected_mono (layers layers' : gset string) (name : string) :
  layers ⊆ layers' ->
  intersected layers name = true -> intersected layers' name = true.
Proof.
  unfold intersected. intros Hsub H.
  apply bool_decide_eq_true in H. apply bool_decide_eq_true.
  apply Hsub. exact H.
Qed.

(** X21: intersecting more historic layers never raises the factor of
    a parcel that is already classified. *)
Theorem more_layers_never_raise_feasibility (layers layers' : gset string)
    (row row' : parcel_row) :
  layers ⊆ layers' ->
  classify_historic_type layers <> None ->
  historic_type row = classify_historic_type layers ->
  historic_type row' = classify_historic_type layers' ->
  feasibility row' <= feasibility row.
Proof.
  intros Hsub Hsome Hrow Hrow'.
  rewrite classify_follows_ladder in Hsome, Hrow, Hrow'.
  pose proof (intersected_mono layers layers' "landmarks" Hsub) as H1.
  pose proof (intersected_mono layers layers' "historic_resources" Hsub) as H2.
  pose proof (intersected_mono layers layers' "national_register" Hsub) as H3.
  pose proof (intersected_mono layers layers' "california_register" Hsub) as H4.
  pose proof (intersected_mono layers layers' "article10_districts" Hsub) as H5.
  pose proof (intersected_mono layers layers' "article11_districts" Hsub) as H6.
  pose proof (intersected_mono layers layers' "historic_survey" Hsub) as H7.
  unfold historic_ladder in Hsome, Hrow, Hrow'.
  set (d := intersected layers "national_register"
            || intersected layers "california_register"
            || intersected layers "article10_districts"
            || intersected layers "article11_districts") in *.
  set (d' := intersected layers' "national_register"
             || intersected layers' "california_register"
             || intersected layers' "article10_districts"
             || intersected layers' "article11_districts") in *.
  assert (Hd : d = true -> d' = true).
  { subst d d'. rewrite !orb_true_iff. tauto. }
  clearbody d d'. clear H3 H4 H5 H6.
  destruct (intersected layers "landmarks"),
    (intersected layers "historic_resources"), d,
    (intersected layers "historic_survey");
    try (exfalso; apply Hsome; reflexivity);
    try rewrite (H1 eq_refl) in Hrow';
    try rewrite (H2 eq_refl) in Hrow';
    try rewrite (Hd eq_refl) in Hrow';
    try rewrite (H7 eq_refl) in Hrow';
    clear H1 H2 Hd H7 Hsome;
    destruct (intersected layers' "landmarks"),
      (intersected layers' "historic_resources"), d',
      (intersected layers' "historic_survey");
    unfold feasibility; rewrite Hrow, Hrow'; simpl; discriminate.
Qed.

Lemma classified_parcel_scored_as_historic_witness :
  In (feasibility Samples.built_out_parcel) [0.02; 0.10; 0.15; 0.18]
  /\ feasibility Samples.built_out_parcel <= 0.18.
Proof.
  apply (classified_parcel_scored_as_historic {[ "landmarks" ]}
           Samples.built_out_parcel).
  - vm_compute. reflexivity.
  - vm_compute. discriminate.
Defined.

Lemma more_layers_never_raise_feasibility_witness :
  feasibility Samples.built_out_parcel <= feasibility Samples.surveyed_parcel.
Proof.
  apply (more_layers_never_raise_feasibility
           {[ "historic_survey" ]} {[ "historic_survey"; "landmarks" ]}
           Samples.surveyed_parcel Samples.built_out_parcel).
  - compute_done.
  - vm_compute. discriminate.
  - vm_compute. reflexivity.
  - vm_compute. reflexivity.
Defined.

End HistoricScoring.

Module HistoricLayersFacts.
Import HistoricLayers.

Section Layers.

Context {G : Type}.

Lemma concat_filter_nonempty {A : Type} (ls : list (list A)) :
  List.concat (List.filter is_nonempty ls) = List.concat ls.
Proof.
  induction ls as [| l ls IH]; [reflexivity |].
  destruct l as [| x l]; simpl; [exact IH |]. rewrite IH. reflexivity.
Qed.

Lemma load_historic_union_Some (download : nat -> option (@layer_gdf G))
    (u : list (@historic_feature G * string)) :
  load_historic_union download = Some u ->
  u = List.flat_map (load_layer download) HISTORIC_LAYERS /\ u <> [].
Proof.
  unfold load_historic_union.
  set (gdfs := List.map (load_layer download) HISTORIC_LAYERS).
  destruct (List.filter is_nonempty gdfs) as [| g gs] eqn:Hf;
    [discriminate |].
  intros Hu. change (Some (List.concat (g :: gs)) = Some u) in Hu.
  injection Hu as <-. change (g ++ List.concat gs) with (List.concat (g :: gs)).
  rewrite <- Hf, concat_filter_nonempty.
  split; [subst gdfs; symmetry; apply List.flat_map_concat_map |].
  assert (Hg : In g (List.filter is_nonempty gdfs))
    by (rewrite Hf; left; reflexivity).
  apply filter_In in Hg as [Hin Hne].
  destruct g as [| x g]; [discriminate |].
  intros Hnil. apply List.concat_nil_Forall in Hnil.
  rewrite List.Forall_forall in Hnil. discriminate (Hnil _ Hin).
Qed.

Lemma load_historic_union_None (download : nat -> option (@layer_gdf G)) :
  load_historic_union download = None ->
  forall entry, In entry HISTORIC_LAYERS -> load_layer download entry = [].
Proof.
  unfold load_historic_union.
  set (gdfs := List.map (load_layer download) HISTORIC_LAYERS).
  destruct (List.filter is_nonempty gdfs) as [| g gs] eqn:Hf;
    [| discriminate].
  intros _ entry Hentry.
  destruct (load_layer download entry) as [| x l] eqn:Hl; [reflexivity |].
  assert (Hin : In (x :: l) (List.filter is_nonempty gdfs)).
  { apply filter_In. split; [| reflexivity].
    subst gdfs. rewrite <- Hl. apply in_map. exact Hentry. }
  rewrite Hf in Hin. destruct Hin.
Qed.

Lemma load_layer_tag (download : nat -> option (@layer_gdf G))
    (entry : string * nat) (t : @historic_feature G * string) :
  In t (load_layer download entry) ->
  snd t = fst entry
  /\ exists gdf, download (snd entry) = Some gdf
                 /\ In (fst t) (filter_layer (fst entry) gdf).
Proof.
  unfold load_layer. destruct (download (snd entry)) as [gdf |]; [| intros []].
  intros Hin. apply in_map_iff in Hin as (f & <- & Hf).
  split; [reflexivity |]. exists gdf. split; [reflexivity | exact Hf].
Qed.

Lemma filter_load_layer (download : nat -> option (@layer_gdf G))
    (entry : string * nat) (name : string) :
  List.filter (tagged_with name) (load_layer download entry)
  = if String.eqb (fst entry) name then load_layer download entry else [].
Proof.
  unfold load_layer. destruct (download (snd entry)) as [gdf |];
    [| destruct (String.eqb _ _); reflexivity].
  induction (filter_layer (fst entry) gdf) as [| f fs IH]; simpl.
  - destruct (String.eqb _ _); reflexivity.
  - unfold tagged_with at 1. simpl. rewrite IH.
    destruct (String.eqb (fst entry) name); reflexivity.
Qed.

(** X22: every feature of the union carries the name of a configured layer
    and passed that layer's filter; the union is never an empty table;
    and what the union holds of one layer is what that layer's own
    download gave, whether or not the other downloads failed. *)
Theorem historic_union_by_layer (download : nat -> option (@layer_gdf G))
    (u : list (@historic_feature G * string)) :
  load_historic_union download = Some u ->
  u <> []
  /\ (forall f name, In (f, name) u ->
        In name (List.map fst HISTORIC_LAYERS)
        /\ (name = "historic_resources" -> has_historic_rating f = true))
  /\ (forall entry, In entry HISTORIC_LAYERS ->
        List.filter (tagged_with (fst entry)) u = load_layer download entry).
Proof.
  intros Hu. apply load_historic_union_Some in Hu as [-> Hne].
  split; [exact Hne |]. split.
  - intros f name Hin. apply in_flat_map in Hin as (entry & Hentry & Hin).
    apply load_layer_tag in Hin as (Htag & gdf & _ & Hf). simpl in Htag, Hf.
    split; [rewrite Htag; apply in_map; exact Hentry |].
    intros Hname. rewrite <- Htag in Hf. rewrite Hname in Hf.
    unfold filter_layer in Hf. simpl in Hf.
    apply filter_In in Hf as [_ Hf]. exact Hf.
  - intros entry Hentry. unfold HISTORIC_LAYERS in *. simpl in Hentry.
    simpl. rewrite !List.filter_app, !filter_load_layer. simpl.
    repeat (destruct Hentry as [<- | Hentry];
            [simpl; rewrite ?List.app_nil_r; reflexivity |]).
    destruct Hentry.
Qed.

Context {P : Type} (parcel_key : P -> nat)
        (intersects : P -> @historic_feature G * string -> bool).

Lemma join_row_tags (p : P) (u : list (@historic_feature G * string)) :
  List.flat_map
    (fun row : P * option (@historic_feature G * string) =>
       match snd row with
       | Some tagged => [snd tagged]
       | None => []
       end)
    (Frame.join_row intersects p u)
  = List.map snd (List.filter (intersects p) u).
Proof.
  unfold Frame.join_row.
  destruct (List.filter (intersects p) u) as [| m ms]; [reflexivity |].
  generalize (m :: ms) as l. induction l as [| x l IH]; [reflexivity |].
  simpl. rewrite IH. reflexivity.
Qed.

Lemma historic_layers_of_spec (parcels : list P)
    (u : list (@historic_feature G * string)) (p : P) (name : string) :
  List.NoDup (List.map parcel_key parcels) -> In p parcels ->
  name ∈ historic_layers_of parcel_key (parcel_key p)
           (parcel_historic intersects parcels u)
  <-> exists f, In (f, name) u /\ intersects p (f, name) = true.
Proof.
  intros Hnd Hp. unfold historic_layers_of, parcel_historic.
  rewrite (FrameFacts.rows_of_left_join intersects parcel_key parcels u p Hnd Hp).
  rewrite join_row_tags, elem_of_list_to_set, list_elem_of_In, in_map_iff.
  split.
  - intros ([f n] & Hn & Hin). simpl in Hn. subst n.
    apply filter_In in Hin. exists f. exact Hin.
  - intros (f & Hin & Hm). exists (f, name). split; [reflexivity |].
    apply filter_In. split; assumption.
Qed.

Lemma configured_on_ladder (layers : gset string) (name : string) :
  In name (List.map fst HISTORIC_LAYERS) -> name ∈ layers ->
  classify_historic_type layers <> None.
Proof.
  intros Hname Hin. rewrite classify_follows_ladder.
  unfold historic_ladder. simpl in Hname.
  repeat (destruct Hname as [<- | Hname];
          [rewrite (intersected_true _ _ Hin);
           repeat match goal with
                  | |- context [intersected layers ?n] =>
                      destruct (intersected layers n)
                  end; simpl; discriminate |]).
  destruct Hname.
Qed.

(** X23: with the union the loader builds, a parcel gets a historic type
    exactly when it is in the set of historic parcel ids, that is when it
    intersects a feature of the union; no parcel is flagged historic and
    left without a type. *)
Theorem historic_flag_iff_type (download : nat -> option (@layer_gdf G))
    (u : list (@historic_feature G * string)) (parcels : list P) (p : P) :
  load_historic_union download = Some u ->
  List.NoDup (List.map parcel_key parcels) -> In p parcels ->
  let joined := parcel_historic intersects parcels u in
  (parcel_key p ∈ historic_parcel_ids parcel_key joined
   <-> historic_type_of parcel_key (parcel_key p) joined <> None)
  /\ (parcel_key p ∈ historic_parcel_ids parcel_key joined
      <-> exists t, In t u /\ intersects p t = true).
Proof.
  intros Hu Hnd Hp joined. subst joined.
  apply load_historic_union_Some in Hu as [Hflat _].
  assert (Hflag : parcel_key p ∈ historic_parcel_ids parcel_key
                                   (parcel_historic intersects parcels u)
                  <-> exists t, In t u /\ intersects p t = true).
  { unfold historic_parcel_ids, parcel_historic.
    rewrite (FrameFacts.flagged_ids_matches intersects parcel_key parcels u
               (parcel_key p) Hnd).
    split.
    - intros (l & Hl & Hk & Hm).
      assert (l = p) as ->; [| exact Hm].
      clear - Hnd Hl Hp Hk. induction parcels as [| x xs IH]; [destruct Hl |].
      inversion Hnd as [| ? ? Hx Hrest]; subst.
      destruct Hl as [-> | Hl], Hp as [-> | Hp]; try reflexivity.
      + exfalso. apply Hx. rewrite Hk. apply in_map. exact Hp.
      + exfalso. apply Hx. rewrite <- Hk. apply in_map. exact Hl.
      + apply IH; assumption.
    - intros Hm. exists p. split; [exact Hp |]. split; [reflexivity | exact Hm]. }
  split; [| exact Hflag].
  rewrite Hflag. unfold historic_type_of. split.
  - intros ([f name] & Hin & Hm).
    apply (configured_on_ladder _ name).
    + rewrite Hflat in Hin. apply in_flat_map in Hin as (entry & Hentry & Hin).
      apply load_layer_tag in Hin as [Htag _]. simpl in Htag.
      rewrite Htag. apply in_map. exact Hentry.
    + apply (historic_layers_of_spec parcels u p name Hnd Hp).
      exists f. split; assumption.
  - intros Hsome.
    destruct (decide (historic_layers_of parcel_key (parcel_key p)
                        (parcel_historic intersects parcels u) = ∅))
      as [Hempty | Hne].
    + exfalso. apply Hsome. rewrite Hempty. reflexivity.
    + apply set_choose_L in Hne as [name Hname].
      apply (historic_layers_of_spec parcels u p name Hnd Hp) in Hname
        as (f & Hin & Hm).
      exists (f, name). split; assumption.
Qed.

End Layers.

Lemma historic_union_by_layer_witness :
  Samples.sample_historic_union <> []
  /\ List.filter (tagged_with "landmarks") Samples.sample_historic_union
     = load_layer Samples.sample_download ("landmarks", 11%nat)
  /\ List.filter (tagged_with "historic_survey") Samples.sample_historic_union
     = load_layer Samples.sample_download ("historic_survey", 30%nat).
Proof.
  destruct (historic_union_by_layer Samples.sample_download
              Samples.sample_historic_union) as (Hne & _ & Hlayer);
    [reflexivity |].
  split; [exact Hne |].
  split; [apply (Hlayer ("landmarks", 11%nat)) |
          apply (Hlayer ("historic_survey", 30%nat))];
    unfold HISTORIC_LAYERS; simpl; tauto.
Defined.

Lemma historic_flag_iff_type_witness :
  let joined :=
    parcel_historic Samples.on_feature Samples.sample_parcels
      Samples.sample_historic_union in
  (Samples.parcel_key 1 ∈ historic_parcel_ids Samples.parcel_key joined
   <-> historic_type_of Samples.parcel_key (Samples.parcel_key 1) joined
       <> None)
  /\ (Samples.parcel_key 1 ∈ historic_parcel_ids Samples.parcel_key joined
      <-> exists t, In t Samples.sample_historic_union
                    /\ Samples.on_feature 1 t = true).
Proof.
  apply (historic_flag_iff_type Samples.parcel_key Samples.on_feature
           Samples.sample_download Samples.sample_historic_union
           Samples.sample_parcels 1%nat).
  - reflexivity.
  - distinct_numbers.
  - simpl. tauto.
Defined.

End HistoricLayersFacts.

Module DownloadFacts.
Import Download.

Section Paginate.

Context {A : Type} (fetch : nat -> list A) (total_count : nat).

Lemma paginate_stops (fuel : nat) :
  forall (offset : nat) (acc : list (list A)),
    (total_count - offset < fuel)%nat ->
    offset = length (List.concat acc) ->
    exists pages,
      paginate fetch total_count fuel offset acc = Some pages
      /\ stopped fetch total_count (length (List.concat pages))
      /\ (acc <> [] -> pages <> [])
      /\ (pages = [] -> offset = 0%nat /\ stopped fetch total_count 0)
      /\ (List.Forall (fun g => g <> []) acc ->
          List.Forall (fun g => g <> []) pages)
      /\ forall fuel', (total_count - offset < fuel')%nat ->
           paginate fetch total_count fuel' offset acc = Some pages.
Proof.
  induction fuel as [| fuel IH]; intros offset acc Hfuel Hoff; [lia |].
  simpl. destruct (Nat.ltb_spec offset total_count) as [Hlt | Hge].
  - destruct (Nat.eqb_spec (length (fetch offset)) 0) as [Hzero | Hpos].
    + exists acc. split; [reflexivity |].
      assert (Hnil : fetch offset = [])
        by (destruct (fetch offset); [reflexivity | discriminate]).
      split; [right; rewrite <- Hoff; exact Hnil |].
      split; [tauto |]. split; [| split; [tauto |]].
      * intros ->. simpl in Hoff. subst offset.
        split; [reflexivity | right; exact Hnil].
      * intros fuel' Hfuel'. destruct fuel' as [| fuel']; [lia |]. simpl.
        destruct (Nat.ltb_spec offset total_count); [| lia].
        rewrite Hzero. reflexivity.
    + destruct (IH (offset + length (fetch offset))%nat
                  (acc ++ [fetch offset]))
        as (pages & Hp & Hstop & Hne & _ & Hall & Hany).
      * lia.
      * rewrite List.concat_app, length_app. simpl.
        rewrite List.app_nil_r. lia.
      * exists pages. split; [exact Hp |]. split; [exact Hstop |].
        assert (Hpages : pages <> []).
        { apply Hne. destruct acc; discriminate. }
        split; [intros _; exact Hpages |].
        split; [intros Hnil; contradiction |]. split.
        -- intros Hacc. apply Hall. apply List.Forall_app. split; [exact Hacc |].
           constructor; [| constructor].
           intros Hnil. apply Hpos. rewrite Hnil. reflexivity.
        -- intros fuel' Hfuel'. destruct fuel' as [| fuel']; [lia |]. simpl.
           destruct (Nat.ltb_spec offset total_count); [| lia].
           destruct (Nat.eqb_spec (length (fetch offset)) 0); [contradiction |].
           apply Hany. lia.
  - exists acc. split; [reflexivity |].
    split; [left; lia |]. split; [tauto |]. split; [| split; [tauto |]].
    + intros ->. simpl in Hoff. subst offset. split; [reflexivity | left; lia].
    + intros fuel' Hfuel'. destruct fuel' as [| fuel']; [lia |]. simpl.
      destruct (Nat.ltb_spec offset total_count); [lia | reflexivity].
Qed.

(** X24: the download always ends, after at most [total_count] requests that
    return something: with more fuel than that the result no longer
    depends on the fuel.  It ends either with the error, exactly when the
    count is 0 or the first page is empty, or with records, and then it
    has reached the count or met an empty page. *)
Theorem download_geojson_ends :
  exists result,
    (forall fuel, (total_count < fuel)%nat ->
        download_geojson fetch total_count fuel = Some result)
    /\ (result = NoRecordsDownloaded
        <-> total_count = 0%nat \/ fetch 0%nat = [])
    /\ (forall combined, result = Records combined ->
          combined <> []
          /\ stopped fetch total_count (length combined)).
Proof.
  destruct (paginate_stops (S total_count) 0 []) as
    (pages & Hp & Hstop & _ & Hnil & Hall & Hany); [lia | reflexivity |].
  assert (Hres : forall fuel, (total_count < fuel)%nat ->
             download_geojson fetch total_count fuel
             = Some (match pages with
                     | [] => NoRecordsDownloaded
                     | _ => Records (List.concat pages)
                     end)).
  { intros fuel Hfuel. unfold download_geojson.
    rewrite (Hany fuel) by lia. destruct pages; reflexivity. }
  exists (match pages with
          | [] => NoRecordsDownloaded
          | _ => Records (List.concat pages)
          end).
  split; [exact Hres |]. split.
  - destruct pages as [| g gs].
    + split; [intros _ | reflexivity].
      destruct (Hnil eq_refl) as [_ [Hc | Hf]]; [left; lia | right; exact Hf].
    + split; [discriminate |]. intros Hzero. exfalso.
      simpl in Hp.
      destruct (Nat.ltb_spec 0 total_count) as [Hlt | Hge];
        [| discriminate Hp].
      destruct Hzero as [Hz | Hf]; [lia |].
      rewrite Hf in Hp. discriminate Hp.
  - intros combined Hc. destruct pages as [| g gs]; [discriminate |].
    injection Hc as <-. split; [| exact Hstop].
    specialize (Hall (List.Forall_nil _)).
    inversion Hall as [| ? ? Hg _]; subst.
    destruct g; [contradiction | discriminate].
Qed.

End Paginate.

Section RoundTrip.

Context {A : Type} (data : list A) (page : nat -> nat).

Hypothesis page_positive : forall offset, (1 <= page offset)%nat.

Lemma firstn_then_page (l : list A) :
  forall offset k,
    List.firstn offset l ++ List.firstn k (List.skipn offset l)
    = List.firstn (offset + k) l.
Proof.
  induction l as [| x l IH]; intros offset k.
  - rewrite List.skipn_nil, !List.firstn_nil. reflexivity.
  - destruct offset as [| offset]; [reflexivity |].
    simpl. f_equal. apply IH.
Qed.

Lemma serve_length (offset : nat) :
  length (serve data page offset)
  = Nat.min (page offset) (length data - offset).
Proof.
  unfold serve. rewrite List.length_firstn, List.length_skipn. reflexivity.
Qed.

Lemma serve_extends (offset : nat) :
  List.firstn offset data ++ serve data page offset
  = List.firstn (offset + length (serve data page offset)) data.
Proof.
  rewrite serve_length. unfold serve. rewrite firstn_then_page.
  destruct (Nat.le_gt_cases (page offset) (length data - offset)) as [Hle | Hgt].
  - rewrite Nat.min_l by exact Hle. reflexivity.
  - rewrite Nat.min_r by lia.
    rewrite !List.firstn_all2 by lia. reflexivity.
Qed.

Lemma paginate_serve (fuel : nat) :
  forall (offset : nat) (acc : list (list A)),
    (offset <= length data)%nat ->
    List.concat acc = List.firstn offset data ->
    (length data - offset < fuel)%nat ->
    exists pages,
      paginate (serve data page) (length data) fuel offset acc = Some pages
      /\ List.concat pages = data
      /\ (acc = [] -> offset = length data -> pages = []).
Proof.
  induction fuel as [| fuel IH]; intros offset acc Hle Hacc Hfuel; [lia |].
  simpl. destruct (Nat.ltb_spec offset (length data)) as [Hlt | Hge].
  - pose proof (serve_length offset) as Hlen.
    pose proof (page_positive offset) as Hpage.
    destruct (Nat.eqb_spec (length (serve data page offset)) 0)
      as [Hzero | Hpos]; [lia |].
    destruct (IH (offset + length (serve data page offset))%nat
                (acc ++ [serve data page offset]))
      as (pages & Hp & Hdata & _).
    + lia.
    + rewrite List.concat_app. simpl. rewrite List.app_nil_r, Hacc.
      apply serve_extends.
    + lia.
    + exists pages. split; [exact Hp |]. split; [exact Hdata |]. lia.
  - exists acc. split; [reflexivity |]. split; [| tauto].
    rewrite Hacc. apply List.firstn_all2. lia.
Qed.

(** X25: against a service that holds a table and hands out its records in
    order, any positive number at a time, the download returns the
    whole table, in order, or the error when the table is empty. *)
Theorem download_geojson_round_trip :
  download_geojson (serve data page) (length data) (S (length data))
  = Some (match data with
          | [] => NoRecordsDownloaded
          | _ => Records data
          end).
Proof.
  destruct (paginate_serve (S (length data)) 0 [])
    as (pages & Hp & Hdata & Hempty); [lia | reflexivity | lia |].
  unfold download_geojson. rewrite Hp.
  destruct data as [| x l] eqn:Hd.
  - rewrite (Hempty eq_refl eq_refl). reflexivity.
  - destruct pages as [| g gs]; [discriminate Hdata |].
    rewrite Hdata. reflexivity.
Qed.

End RoundTrip.

Lemma download_geojson_ends_witness :
  exists result,
    (forall fuel, (5 < fuel)%nat ->
        download_geojson (serve Samples.sample_data Samples.two_at_a_time)
          5 fuel = Some result)
    /\ (result = NoRecordsDownloaded
        <-> 5%nat = 0%nat
            \/ serve Samples.sample_data Samples.two_at_a_time 0%nat = [])
    /\ (forall combined, result = Records combined ->
          combined <> []
          /\ stopped (serve Samples.sample_data Samples.two_at_a_time) 5
               (length combined)).
Proof.
  exact (download_geojson_ends
           (serve Samples.sample_data Samples.two_at_a_time) 5).
Defined.

Lemma download_geojson_round_trip_witness :
  download_geojson (serve Samples.sample_data Samples.two_at_a_time)
    (length Samples.sample_data) (S (length Samples.sample_data))
  = Some (Records Samples.sample_data).
Proof.
  apply (download_geojson_round_trip Samples.sample_data
           Samples.two_at_a_time).
  intros offset. unfold Samples.two_at_a_time. lia.
Defined.

End DownloadFacts.
